(** * TradingView indicator server: the text-analysis engine

    A shallow embedding of [src/simple-mcp.ts] (the four-tool server:
    [list_indicators], [analyze_indicator], [search_indicators],
    [extract_functions]) and the properties of its line classifier, file
    analyzer, function body extractor, corpus search and tool dispatch.

    Strings are JavaScript strings: finite sequences of UTF-16 code units.
    Thrown values are carried by an error monad. The file system and the two
    host services whose tables are not part of the repository
    ([String.prototype.toLowerCase] and the text of a zod validation error)
    are collected in a [Host] record that every effectful function takes. *)

From stdpp Require Import base numbers list strings sets.
From Stdlib Require Import Ascii Sorted.

(** ** JavaScript strings *)

Module JS.

Local Open Scope N_scope.

(** A UTF-16 code unit. *)
Definition char : Type := N.
Definition jsstring : Type := list char.

(** An ASCII literal as a JavaScript string. *)
Definition str (s : string) : jsstring :=
  List.map N_of_ascii (String.list_ascii_of_string s).
Arguments str _%_string.

Definition LF : char := 10.
Definition SPACE : char := 32.
Definition DQUOTE : char := 34.
Definition LPAREN : char := 40.
Definition EQUALS : char := 61.
Definition LBRACE : char := 123.
Definition RBRACE : char := 125.

(** ECMAScript WhiteSpace and LineTerminator code points: what
    [String.prototype.trim] strips and what the regular expression class
    [\s] matches. *)
Definition isWhiteSpace (c : char) : bool :=
  (c =? 9) || (c =? 10) || (c =? 11) || (c =? 12) || (c =? 13) ||
  (c =? 32) || (c =? 160) || (c =? 5760) ||
  ((8192 <=? c) && (c <=? 8202)) ||
  (c =? 8232) || (c =? 8233) || (c =? 8239) || (c =? 8287) ||
  (c =? 12288) || (c =? 65279).

(** The class [[a-zA-Z_]]. *)
Definition isIdentStart (c : char) : bool :=
  ((65 <=? c) && (c <=? 90)) || ((97 <=? c) && (c <=? 122)) || (c =? 95).

(** The class [[a-zA-Z0-9_]]. *)
Definition isIdentChar (c : char) : bool :=
  isIdentStart c || ((48 <=? c) && (c <=? 57)).

Fixpoint dropWhile (p : char -> bool) (s : jsstring) : jsstring :=
  match s with
  | [] => []
  | c :: s' => if p c then dropWhile p s' else s
  end.

Definition trimStart (s : jsstring) : jsstring := dropWhile isWhiteSpace s.
Definition trimEnd (s : jsstring) : jsstring :=
  reverse (dropWhile isWhiteSpace (reverse s)).

(** [s.trim()] *)
Definition trim (s : jsstring) : jsstring := trimEnd (trimStart s).

(** [s.startsWith(p)] *)
Fixpoint startsWith (s p : jsstring) {struct p} : bool :=
  match p, s with
  | [], _ => true
  | _ :: _, [] => false
  | d :: p', c :: s' => (c =? d) && startsWith s' p'
  end.

(** [s.includes(t)] *)
Fixpoint includes (s t : jsstring) : bool :=
  startsWith s t ||
  match s with
  | [] => false
  | _ :: s' => includes s' t
  end.

(** [s === t] on strings *)
Fixpoint strEq (s t : jsstring) : bool :=
  match s, t with
  | [], [] => true
  | c :: s', d :: t' => (c =? d) && strEq s' t'
  | _, _ => false
  end.

(** [s.endsWith(p)] *)
Definition endsWith (s p : jsstring) : bool :=
  startsWith (reverse s) (reverse p).

(** [s.split(sep)] for a one-code-unit separator, the only kind the server
    uses (['\n'], ['('], ['=']). *)
Fixpoint split (sep : char) (s : jsstring) : list jsstring :=
  match s with
  | [] => [[]]
  | c :: s' =>
      if c =? sep then [] :: split sep s'
      else match split sep s' with
           | seg :: segs => (c :: seg) :: segs
           | [] => [[c]]
           end
  end.

(** [a.join(sep)] *)
Fixpoint join (sep : jsstring) (a : list jsstring) : jsstring :=
  match a with
  | [] => []
  | [x] => x
  | x :: a' => x ++ sep ++ join sep a'
  end.

(** [a.slice(from, to)] for [0 <= from]. *)
Definition slice {A} (a : list A) (from to : nat) : list A :=
  take (to - from) (drop from a).

(** [s.substring(0, n)] *)
Definition substring0 (s : jsstring) (n : nat) : jsstring := take n s.

(** A non-negative integer rendered in decimal, as a template literal does. *)
Fixpoint digits (u : Decimal.uint) : jsstring :=
  match u with
  | Decimal.Nil => []
  | Decimal.D0 u => 48 :: digits u
  | Decimal.D1 u => 49 :: digits u
  | Decimal.D2 u => 50 :: digits u
  | Decimal.D3 u => 51 :: digits u
  | Decimal.D4 u => 52 :: digits u
  | Decimal.D5 u => 53 :: digits u
  | Decimal.D6 u => 54 :: digits u
  | Decimal.D7 u => 55 :: digits u
  | Decimal.D8 u => 56 :: digits u
  | Decimal.D9 u => 57 :: digits u
  end.
Definition numToString (n : nat) : jsstring := digits (Nat.to_uint n).

(** *** Thrown values and the error monad *)

(** Every value the server throws is an [Error] instance: a name and a
    message. *)
Record jsexn : Type := MkError { ename : jsstring; emessage : jsstring }.

(** [String(error)], which is also what a template literal interpolates:
    [Error.prototype.toString]. *)
Definition exnToString (e : jsexn) : jsstring :=
  match ename e, emessage e with
  | [], m => m
  | n, [] => n
  | n, m => n ++ str ": " ++ m
  end.

Inductive result (A : Type) : Type :=
| Ok (a : A)
| Throw (e : jsexn).
Arguments Ok {A} a.
Arguments Throw {A} e.

Definition bind {A B} (m : result A) (k : A -> result B) : result B :=
  match m with
  | Ok a => k a
  | Throw e => Throw e
  end.

(** [try { body } catch (error) { handler }] *)
Definition tryCatch {A} (body : result A) (handler : jsexn -> result A)
  : result A :=
  match body with
  | Ok a => Ok a
  | Throw e => handler e
  end.

Definition newError (message : jsstring) : jsexn :=
  {| ename := str "Error"; emessage := message |}.

(** [a[0]] on an array the source types as [string[]]. Out of range the
    source reads [undefined]; the declared type excludes it and a method
    call on it throws a [TypeError], so the access itself is the failure
    point here. *)
Definition at0 (a : list jsstring) : result jsstring :=
  match a with
  | x :: _ => Ok x
  | [] => Throw {| ename := str "TypeError";
                   emessage := str "Cannot read properties of undefined" |}
  end.

End JS.

Import JS.

Declare Scope js_scope.
Delimit Scope js_scope with js.
Notation "'let*' x ':=' m 'in' k" := (bind m (fun x => k))
  (at level 10, x name, m at level 100, k at level 200) : js_scope.
Local Open Scope js_scope.

(** ** Line classifier *)

Module Classifier.

(** The shape [/^[a-zA-Z_][a-zA-Z0-9_]*\s*X/] for a one-code-unit [X].
    The three classes are pairwise disjoint and [X] is in none of them, so
    the greedy scan never has to backtrack; [matchHead_spec] relates it to
    the declarative reading of the pattern. *)
Definition matchHead (stop : char) (s : jsstring) : bool :=
  match s with
  | c :: s' =>
      isIdentStart c &&
      match dropWhile isWhiteSpace (dropWhile isIdentChar s') with
      | d :: _ => (d =? stop)%N
      | [] => false
      end
  | [] => false
  end.

(** [trimmed.match(/^[a-zA-Z_][a-zA-Z0-9_]*\s*\(/)] *)
Definition isFunctionLine (trimmed : jsstring) : bool :=
  matchHead LPAREN trimmed.

(** The prefix [/^var\s+/]: what follows it, when the string starts with
    it. *)
Definition stripVar (s : jsstring) : option jsstring :=
  if startsWith s (str "var") then
    match drop 3 s with
    | c :: r => if isWhiteSpace c then Some (dropWhile isWhiteSpace r)
                else None
    | [] => None
    end
  else None.

(** [trimmed.match(/^(var\s+)?[a-zA-Z_][a-zA-Z0-9_]*\s*=/)] *)
Definition isVariableLine (trimmed : jsstring) : bool :=
  match stripVar trimmed with
  | Some r => matchHead EQUALS r
  | None => false
  end || matchHead EQUALS trimmed.

(** [trimmed.replace(/^var\s+/, '')] *)
Definition replaceVar (trimmed : jsstring) : jsstring :=
  match stripVar trimmed with
  | Some r => r
  | None => trimmed
  end.

Definition isPlotLine (trimmed : jsstring) : bool :=
  includes trimmed (str "plot(") || includes trimmed (str "plotshape(") ||
  includes trimmed (str "plotchar(").

Definition isInputLine (trimmed : jsstring) : bool :=
  includes trimmed (str "input(") || includes trimmed (str "input.").

Definition isAlertLine (trimmed : jsstring) : bool :=
  includes trimmed (str "alert(") || includes trimmed (str "alertcondition(").

End Classifier.

Import Classifier.

(** ** File analyzer *)

Module Analyzer.

Inductive Complexity : Type := Low | Medium | High.

Record Analysis : Type := {
  functions : list jsstring;
  variables : list jsstring;
  plots : list jsstring;
  inputs : list jsstring;
  alerts : list jsstring;
  complexity : Complexity;
  lineCount : nat
}.

(** The five arrays the scan pushes to. *)
Record Buckets : Type := {
  b_functions : list jsstring;
  b_variables : list jsstring;
  b_plots : list jsstring;
  b_inputs : list jsstring;
  b_alerts : list jsstring
}.

Definition noBuckets : Buckets :=
  {| b_functions := []; b_variables := []; b_plots := [];
     b_inputs := []; b_alerts := [] |}.

(** [a.push(x)] *)
Definition push (a : list jsstring) (x : jsstring) : list jsstring :=
  a ++ [x].

(** [for (const x of xs) body] over a state that may throw. *)
Fixpoint forOf {S A : Type} (body : S -> A -> result S) (xs : list A) (s : S)
  : result S :=
  match xs with
  | [] => Ok s
  | x :: xs' => let* s' := body s x in forOf body xs' s'
  end.

(** The body of the scanning loop of [analyzeIndicatorCode]. *)
Definition classifyLine (b : Buckets) (line : jsstring) : result Buckets :=
  let trimmed := trim line in
  let* fs :=
    (if isFunctionLine trimmed
     then let* name := at0 (split LPAREN trimmed) in
          Ok (push (b_functions b) name)
     else Ok (b_functions b)) in
  let* vs :=
    (if isVariableLine trimmed
     then let* head := at0 (split EQUALS (replaceVar trimmed)) in
          let varName := trim head in
          Ok (push (b_variables b) varName)
     else Ok (b_variables b)) in
  let ps := if isPlotLine trimmed then push (b_plots b) trimmed
            else b_plots b in
  let ins := if isInputLine trimmed then push (b_inputs b) trimmed
             else b_inputs b in
  let als := if isAlertLine trimmed then push (b_alerts b) trimmed
             else b_alerts b in
  Ok {| b_functions := fs; b_variables := vs; b_plots := ps;
        b_inputs := ins; b_alerts := als |}.

Definition analyzeIndicatorCode (content : jsstring) : result Analysis :=
  let lines := split LF content in
  let* b := forOf classifyLine lines noBuckets in
  let complexity := Low in
  let complexity :=
    if (100 <? length lines) || (10 <? length (b_functions b))
    then Medium else complexity in
  let complexity :=
    if (300 <? length lines) || (20 <? length (b_functions b)) ||
       (5 <? length (b_plots b))
    then High else complexity in
  Ok {| functions := slice (b_functions b) 0 10;
        variables := slice (b_variables b) 0 15;
        plots := slice (b_plots b) 0 10;
        inputs := slice (b_inputs b) 0 10;
        alerts := slice (b_alerts b) 0 5;
        complexity := complexity;
        lineCount := length lines |}.

End Analyzer.

Import Analyzer.

(** ** Function body extractor *)

Module Extractor.

Record FunctionSpan : Type := {
  name : jsstring;
  startLine : nat;
  endLine : nat;
  code : jsstring
}.

(** [braceCount] and [inFunction] of the brace scan. *)
Record ScanState : Type := {
  braceCount : Z;
  inFunction : bool
}.

Definition scanStart : ScanState := {| braceCount := 0; inFunction := false |}.

(** One iteration of the brace scan on [currentLine]: the state after it
    and whether the loop breaks there. *)
Definition scanBraces (st : ScanState) (currentLine : jsstring)
  : ScanState * bool :=
  let st1 :=
    if includes currentLine [LBRACE]
    then {| braceCount := braceCount st + 1; inFunction := true |}
    else st in
  if includes currentLine [RBRACE]
  then
    let st2 := {| braceCount := braceCount st1 - 1;
                  inFunction := inFunction st1 |} in
    (st2, (braceCount st2 =? 0)%Z && inFunction st2)
  else (st1, false).

(** The brace scan over the lines [window], the first of which has index
    [j]: the index at which the loop breaks, if it does. *)
Fixpoint findFunctionEnd (window : list jsstring) (j : nat) (st : ScanState)
  : option nat :=
  match window with
  | [] => None
  | currentLine :: rest =>
      let '(st', stop) := scanBraces st currentLine in
      if stop then Some j else findFunctionEnd rest (S j) st'
  end.

(** [a[i]] for an index the loop condition keeps in range. *)
Definition nth_ (a : list jsstring) (i : nat) : result jsstring :=
  match a !! i with
  | Some x => Ok x
  | None => Throw {| ename := str "TypeError";
                     emessage := str "Cannot read properties of undefined" |}
  end.

(** The body of the outer loop of [extract_functions] at index [i]. *)
Definition extractAt (lines : list jsstring) (functions : list FunctionSpan)
  (i : nat) : result (list FunctionSpan) :=
  let* raw := nth_ lines i in
  let line := trim raw in
  if isFunctionLine line then
    let functionStart := i in
    let functionEnd :=
      default i (findFunctionEnd
                   (slice lines i (Nat.min (i + 50) (length lines)))
                   i scanStart) in
    let functionCode :=
      join [LF] (slice lines functionStart (functionEnd + 1)) in
    if 0 <? length functionCode then
      let* name := at0 (split LPAREN line) in
      Ok (functions ++ [{| name := name;
                           startLine := functionStart + 1;
                           endLine := functionEnd + 1;
                           code := functionCode |}])
    else Ok functions
  else Ok functions.

Definition extractFunctions (content : jsstring)
  : result (list FunctionSpan) :=
  let lines := split LF content in
  forOf (extractAt lines) (seq 0 (length lines)) [].

End Extractor.

Import Extractor.

(** ** The host: file system and built-in tables *)

(** A property value of the tool arguments, as far as the schemas tell
    values apart. *)
Inductive jsprim : Type :=
| PUndefined
| PBool (b : bool)
| PString (s : jsstring)
| POther.

(** The [arguments] of a tool request: an object read by property name, or
    something that is not an object. *)
Inductive jsargs : Type :=
| ArgsObject (props : jsstring -> jsprim)
| ArgsNotObject.

Inductive ZodIssue : Type :=
| BadRoot
| BadProperty (key : jsstring) (received : jsprim).

Record Host : Type := {
  (** [readdirSync(".")] *)
  readdirSync : result (list jsstring);
  (** [readFileSync(filename, 'utf-8')] *)
  readFileSync : jsstring -> result jsstring;
  (** [s.toLowerCase()] *)
  toLowerCase : jsstring -> jsstring;
  (** the message of the [ZodError] that reports the given issues *)
  zodMessage : list ZodIssue -> jsstring
}.

Module Files.

Definition readIndicatorFile (h : Host) (filename : jsstring)
  : result jsstring :=
  tryCatch (readFileSync h filename)
    (fun error =>
       Throw (newError (str "Failed to read indicator file " ++ [DQUOTE] ++
                        filename ++ [DQUOTE] ++ str ": " ++
                        exnToString error))).

(** The filter callback of [getIndicatorFiles]. A pattern is used when it
    is given and truthy, that is, a non-empty string. *)
Definition keepFile (h : Host) (pattern : option jsstring) (file : jsstring)
  : bool :=
  if startsWith file (str ".") || includes file (str "package") ||
     includes file (str "tsconfig") || includes file (str "Dockerfile") ||
     endsWith file (str ".js") || endsWith file (str ".ts") ||
     endsWith file (str ".json") || endsWith file (str ".md") ||
     endsWith file (str ".rar")
  then false
  else match pattern with
       | Some (c :: p) =>
           includes (toLowerCase h file) (toLowerCase h (c :: p))
       | _ => true
       end.

Definition getIndicatorFiles (h : Host) (pattern : option jsstring)
  : result (list jsstring) :=
  tryCatch
    (let* files := readdirSync h in
     Ok (List.filter (keepFile h pattern) files))
    (fun error =>
       Throw (newError (str "Failed to read directory: " ++
                        exnToString error))).

End Files.

Import Files.

(** ** Corpus search *)

Module Search.

Record LineMatch : Type := { line : jsstring; number : nat }.

Record FileMatches : Type := { file : jsstring; matches : list LineMatch }.

(** The lines of [content] that match [term], by the [map]/[filter]/[slice]
    chain of [search_indicators]. *)
Definition lineMatches (h : Host) (term : jsstring) (caseInsensitive : bool)
  (content : jsstring) : list LineMatch :=
  let lines := split LF content in
  slice
    (List.filter
       (fun m =>
          let searchLine :=
            if caseInsensitive then toLowerCase h (line m) else line m in
          includes searchLine term)
       (imap (fun index l => {| line := trim l; number := index + 1 |})
             lines))
    0 3.

(** The body of the loop over the indicator files. *)
Definition searchFile (h : Host) (searchTerm : jsstring)
  (caseInsensitive : bool) (results : list FileMatches) (indicator : jsstring)
  : result (list FileMatches) :=
  tryCatch
    (let* content := readIndicatorFile h indicator in
     let searchContent :=
       if caseInsensitive then toLowerCase h content else content in
     let term :=
       if caseInsensitive then toLowerCase h searchTerm else searchTerm in
     if includes searchContent term then
       let matches := lineMatches h term caseInsensitive content in
       Ok (results ++ [{| file := indicator; matches := matches |}])
     else Ok results)
    (fun _ => Ok results).

Definition searchIndicators (h : Host) (indicators : list jsstring)
  (searchTerm : jsstring) (caseInsensitive : bool)
  : result (list FileMatches) :=
  forOf (searchFile h searchTerm caseInsensitive) indicators [].

End Search.

Import Search.

(** ** Tool dispatch *)

Module Dispatch.

(** [{ content: [{ type: "text", text }], isError }]; a response without
    the [isError] property has [isError = false]. *)
Record Response : Type := { text : jsstring; isError : bool }.

Definition textResponse (t : jsstring) : Response :=
  {| text := t; isError := false |}.

(** *** Schemas *)

Definition zString (key : jsstring) (v : jsprim) : list ZodIssue + jsstring :=
  match v with
  | PString s => inr s
  | _ => inl [BadProperty key v]
  end.

Definition zOptionalString (key : jsstring) (v : jsprim)
  : list ZodIssue + option jsstring :=
  match v with
  | PUndefined => inr None
  | PString s => inr (Some s)
  | _ => inl [BadProperty key v]
  end.

Definition zBooleanDefault (d : bool) (key : jsstring) (v : jsprim)
  : list ZodIssue + bool :=
  match v with
  | PUndefined => inr d
  | PBool b => inr b
  | _ => inl [BadProperty key v]
  end.

Definition zodThrow {A} (h : Host) (issues : list ZodIssue) : result A :=
  Throw {| ename := str "ZodError"; emessage := zodMessage h issues |}.

Definition issuesOf {A} (r : list ZodIssue + A) : list ZodIssue :=
  match r with
  | inl issues => issues
  | inr _ => []
  end.

(** [AnalyzeIndicatorSchema.parse(args)] and
    [ExtractFunctionsSchema.parse(args)]: [{ indicatorName: z.string() }] *)
Definition parseIndicatorName (h : Host) (args : jsargs) : result jsstring :=
  match args with
  | ArgsNotObject => zodThrow h [BadRoot]
  | ArgsObject props =>
      match zString (str "indicatorName") (props (str "indicatorName")) with
      | inr indicatorName => Ok indicatorName
      | inl issues => zodThrow h issues
      end
  end.

(** [ListIndicatorsSchema.parse(args)]:
    [{ pattern: z.string().optional() }] *)
Definition parseListIndicators (h : Host) (args : jsargs)
  : result (option jsstring) :=
  match args with
  | ArgsNotObject => zodThrow h [BadRoot]
  | ArgsObject props =>
      match zOptionalString (str "pattern") (props (str "pattern")) with
      | inr pattern => Ok pattern
      | inl issues => zodThrow h issues
      end
  end.

(** [SearchIndicatorSchema.parse(args)]:
    [{ searchTerm: z.string(), caseInsensitive: z.boolean().default(true) }] *)
Definition parseSearchIndicator (h : Host) (args : jsargs)
  : result (jsstring * bool) :=
  match args with
  | ArgsNotObject => zodThrow h [BadRoot]
  | ArgsObject props =>
      let t := zString (str "searchTerm") (props (str "searchTerm")) in
      let c := zBooleanDefault true (str "caseInsensitive")
                 (props (str "caseInsensitive")) in
      match t, c with
      | inr searchTerm, inr caseInsensitive =>
          Ok (searchTerm, caseInsensitive)
      | _, _ => zodThrow h (issuesOf t ++ issuesOf c)
      end
  end.

(** *** Rendering *)

Definition BACKTICK : char := 96%N.

Definition renderComplexity (c : Complexity) : jsstring :=
  match c with
  | Low => str "Low"
  | Medium => str "Medium"
  | High => str "High"
  end.

(** [xs.length > 0 ? xs.map(item).join('\n') : 'None found'] *)
Definition bullets (item : jsstring -> jsstring) (xs : list jsstring)
  : jsstring :=
  if 0 <? length xs then join [LF] (List.map item xs) else str "None found".

Definition renderList (indicators : list jsstring) : jsstring :=
  str "Found " ++ numToString (length indicators) ++
  str " indicator files:" ++ [LF; LF] ++
  join [LF]
    (imap (fun i file => numToString (i + 1) ++ str ". " ++ file) indicators).

Definition renderAnalysis (indicatorName : jsstring) (analysis : Analysis)
  : jsstring :=
  join [LF]
    [ str "# Analysis of " ++ indicatorName;
      [];
      str "## Overview";
      str "- **Lines of Code**: " ++ numToString (lineCount analysis);
      str "- **Complexity**: " ++ renderComplexity (complexity analysis);
      [];
      str "## Components Found";
      str "- **Functions**: " ++ numToString (length (functions analysis)) ++
        str " found";
      str "- **Variables**: " ++ numToString (length (variables analysis)) ++
        str " found";
      str "- **Plots**: " ++ numToString (length (plots analysis)) ++
        str " found";
      str "- **Inputs**: " ++ numToString (length (inputs analysis)) ++
        str " found";
      str "- **Alerts**: " ++ numToString (length (alerts analysis)) ++
        str " found";
      [];
      str "## Key Functions";
      bullets (fun f => str "- " ++ f) (functions analysis);
      [];
      str "## Plot Commands";
      bullets (fun p => str "- " ++ substring0 p 100 ++ str "...")
        (plots analysis);
      [];
      str "## Input Parameters";
      bullets (fun i => str "- " ++ substring0 i 80 ++ str "...")
        (inputs analysis);
      [] ].

Definition renderMatch (m : LineMatch) : jsstring :=
  str "  Line " ++ numToString (number m) ++ str ": " ++ line m.

Definition renderFileMatches (r : FileMatches) : jsstring :=
  str "**" ++ file r ++ str "**:" ++ [LF] ++
  join [LF] (List.map renderMatch (matches r)).

Definition renderSearch (searchTerm : jsstring) (results : list FileMatches)
  : jsstring :=
  if 0 <? length results then
    str "Found " ++ [DQUOTE] ++ searchTerm ++ [DQUOTE] ++ str " in " ++
    numToString (length results) ++ str " files:" ++ [LF; LF] ++
    join [LF; LF] (List.map renderFileMatches results)
  else str "No matches found for " ++ [DQUOTE] ++ searchTerm ++ [DQUOTE].

Definition renderSpan (f : FunctionSpan) : jsstring :=
  join [LF]
    [ str "## " ++ name f;
      str "**Lines**: " ++ numToString (startLine f) ++ str "-" ++
        numToString (endLine f);
      [];
      [BACKTICK; BACKTICK; BACKTICK] ++ str "pinescript";
      code f;
      [BACKTICK; BACKTICK; BACKTICK];
      [];
      str "---" ].

Definition renderFunctions (indicatorName : jsstring)
  (functions : list FunctionSpan) : jsstring :=
  str "# Functions extracted from " ++ indicatorName ++ [LF; LF] ++
  str "Found " ++ numToString (length functions) ++ str " functions:" ++
  [LF; LF] ++ join [LF] (List.map renderSpan functions).

(** *** The request handler *)

(** The [switch] inside the [try] block. *)
Definition handleTool (h : Host) (name : jsstring) (args : jsargs)
  : result Response :=
  if strEq name (str "list_indicators") then
    let* pattern := parseListIndicators h args in
    let* indicators := getIndicatorFiles h pattern in
    Ok (textResponse (renderList indicators))
  else if strEq name (str "analyze_indicator") then
    let* indicatorName := parseIndicatorName h args in
    let* content := readIndicatorFile h indicatorName in
    let* analysis := analyzeIndicatorCode content in
    Ok (textResponse (renderAnalysis indicatorName analysis))
  else if strEq name (str "search_indicators") then
    let* parsed := parseSearchIndicator h args in
    let '(searchTerm, caseInsensitive) := parsed in
    let* indicators := getIndicatorFiles h None in
    let* results := searchIndicators h indicators searchTerm caseInsensitive in
    Ok (textResponse (renderSearch searchTerm results))
  else if strEq name (str "extract_functions") then
    let* indicatorName := parseIndicatorName h args in
    let* content := readIndicatorFile h indicatorName in
    let* functions := extractFunctions content in
    Ok (textResponse (renderFunctions indicatorName functions))
  else Throw (newError (str "Unknown tool: " ++ name)).

(** The [catch] block: every thrown value here is an [Error] instance, so
    the text is built from its [message]. *)
Definition errorResponse (error : jsexn) : Response :=
  {| text := str "Error: " ++ emessage error; isError := true |}.

(** The [CallToolRequestSchema] handler. *)
Definition callTool (h : Host) (name : jsstring) (args : jsargs) : Response :=
  match handleTool h name args with
  | Ok response => response
  | Throw error => errorResponse error
  end.

End Dispatch.

Import Dispatch.

(** ** A concrete host *)

Module TestHost.

Definition lowerAscii (c : char) : char :=
  if ((65 <=? c) && (c <=? 90))%N then (c + 32)%N else c.

Fixpoint lookupFile (files : list (jsstring * jsstring)) (filename : jsstring)
  : option jsstring :=
  match files with
  | [] => None
  | (f, content) :: files' =>
      if strEq f filename then Some content else lookupFile files' filename
  end.

Definition enoent (filename : jsstring) : jsexn :=
  newError (str "ENOENT: no such file or directory, open '" ++ filename ++
            str "'").

(** A directory holding exactly [files]; lower-casing is the ASCII one,
    which is what [toLowerCase] does on ASCII text. *)
Definition host (files : list (jsstring * jsstring)) : Host :=
  {| readdirSync := Ok (List.map fst files);
     readFileSync := fun filename =>
       match lookupFile files filename with
       | Some content => Ok content
       | None => Throw (enoent filename)
       end;
     toLowerCase := List.map lowerAscii;
     zodMessage := fun _ => str "Invalid input" |}.

Definition noArgs : jsstring -> jsprim := fun _ => PUndefined.

Definition withArg (key : jsstring) (v : jsprim)
  (props : jsstring -> jsprim) : jsstring -> jsprim :=
  fun k => if strEq k key then v else props k.

End TestHost.

(** ** Specification-level vocabulary *)

(** Number of occurrences of a code unit in a string. *)
Definition occurrences (c : char) (s : jsstring) : nat :=
  length (List.filter (N.eqb c) s).

(** The lines of a file, trimmed, in file order. *)
Definition trimmedLines (content : jsstring) : list jsstring :=
  List.map trim (split LF content).

(** Display texts of the function and variable categories. *)
Definition functionName (trimmed : jsstring) : jsstring :=
  hd [] (split LPAREN trimmed).
Definition variableName (trimmed : jsstring) : jsstring :=
  trim (hd [] (split EQUALS (replaceVar trimmed))).

(** Every match of a category, in file order, before any cap. *)
Definition allFunctions (content : jsstring) : list jsstring :=
  List.map functionName (List.filter isFunctionLine (trimmedLines content)).
Definition allVariables (content : jsstring) : list jsstring :=
  List.map variableName (List.filter isVariableLine (trimmedLines content)).
Definition allPlots (content : jsstring) : list jsstring :=
  List.filter isPlotLine (trimmedLines content).
Definition allInputs (content : jsstring) : list jsstring :=
  List.filter isInputLine (trimmedLines content).
Definition allAlerts (content : jsstring) : list jsstring :=
  List.filter isAlertLine (trimmedLines content).

(** Pre-truncation counts. *)
Definition functionCount (content : jsstring) : nat :=
  length (List.filter isFunctionLine (trimmedLines content)).
Definition plotCount (content : jsstring) : nat :=
  length (List.filter isPlotLine (trimmedLines content)).

Definition mediumCondition (content : jsstring) : Prop :=
  100 < length (split LF content) \/ 10 < functionCount content.
Definition highCondition (content : jsstring) : Prop :=
  300 < length (split LF content) \/ 20 < functionCount content \/
  5 < plotCount content.

(** The tier rule read as two independent equivalences on the returned
    tier. *)
Definition tierByIndependentThresholds (content : jsstring) : Prop :=
  forall r, analyzeIndicatorCode content = Ok r ->
    (complexity r <> Low <-> mediumCondition content) /\
    (complexity r = High <-> highCondition content).

(** An identifier, optional white space, then [stop]: the declarative
    reading of [/^[a-zA-Z_][a-zA-Z0-9_]*\s*X/]. *)
Definition HeadThenStop (stop : char) (s : jsstring) : Prop :=
  exists c ident ws rest,
    s = c :: ident ++ ws ++ stop :: rest /\
    isIdentStart c = true /\
    Forall (fun d => isIdentChar d = true) ident /\
    Forall (fun d => isWhiteSpace d = true) ws.

(** An identifier with [(] right after it, nothing in between. *)
Definition ImmediateCallHead (s : jsstring) : Prop :=
  exists c ident rest,
    s = c :: ident ++ LPAREN :: rest /\
    isIdentStart c = true /\
    Forall (fun d => isIdentChar d = true) ident.

Definition immediateCallHead (s : jsstring) : bool :=
  match s with
  | c :: s' =>
      isIdentStart c &&
      match dropWhile isIdentChar s' with
      | d :: _ => (d =? LPAREN)%N
      | [] => false
      end
  | [] => false
  end.

Definition scenarioA : jsstring :=
  str "foo(x) {" ++ [LF] ++ str "  y = 1" ++ [LF] ++ str "}" ++ [LF].

Definition sixPlots : jsstring :=
  join [LF] (replicate 6 (str "plot(close)")).

(** The tier computed from the two pre-truncation counts and the line
    count. *)
Definition tierOf (content : jsstring) : Complexity :=
  if (300 <? length (split LF content)) || (20 <? functionCount content) ||
     (5 <? plotCount content)
  then High
  else if (100 <? length (split LF content)) || (10 <? functionCount content)
  then Medium
  else Low.

(** The brace scan read as a count of brace characters: every [{] adds one
    and every [}] takes one away. *)
Definition countsEveryBrace (st : ScanState) (line : jsstring) : Prop :=
  braceCount (fst (scanBraces st line)) =
  (braceCount st + Z.of_nat (occurrences LBRACE line)
   - Z.of_nat (occurrences RBRACE line))%Z.

(** The lines the brace scan started at index [i] may visit: from [i] up to
    50 lines, clipped to the end of the file. *)
Definition lookahead (lines : list jsstring) (i : nat) : list jsstring :=
  slice lines i (Nat.min (i + 50) (length lines)).

(** Number of lines that contain the code unit [c]. *)
Definition linesWith (c : char) (ls : list jsstring) : Z :=
  Z.of_nat (length (List.filter (fun l => includes l [c]) ls)).

(** A scan that enters the window [w] in state [st] is back at count zero,
    inside a function, on a closing line at position [k] of the window. *)
Definition closesFrom (st : ScanState) (w : list jsstring) (k : nat) : bool :=
  match w !! k with
  | Some l =>
      includes l [RBRACE] &&
      (inFunction st || (0 <? linesWith LBRACE (take (S k) w))%Z) &&
      (braceCount st + linesWith LBRACE (take (S k) w)
       - linesWith RBRACE (take (S k) w) =? 0)%Z
  | None => false
  end.

Definition closesAt (w : list jsstring) (k : nat) : bool :=
  closesFrom scanStart w k.

(** [f] is the span the extractor builds for a function line of [lines]. *)
Definition spanOf (lines : list jsstring) (f : FunctionSpan) : Prop :=
  exists i raw,
    lines !! i = Some raw /\
    isFunctionLine (trim raw) = true /\
    name f = functionName (trim raw) /\
    startLine f = i + 1 /\
    endLine f =
      default i (findFunctionEnd (lookahead lines i) i scanStart) + 1 /\
    code f = join [LF] (slice lines i (endLine f)).

(** [s] or [s.toLowerCase()], as the case flag says. *)
Definition normalize (h : Host) (caseInsensitive : bool) (s : jsstring)
  : jsstring :=
  if caseInsensitive then toLowerCase h s else s.

(** Every line of [content] as the search sees it: trimmed, with its
    1-based number. *)
Definition numberedTrimmedLines (content : jsstring) : list LineMatch :=
  imap (fun index l => {| line := trim l; number := index + 1 |})
       (split LF content).

(** The entry of a file whose content holds the search term. *)
Definition recorded (h : Host) (searchTerm : jsstring)
  (caseInsensitive : bool) (r : FileMatches) : Prop :=
  exists content,
    readFileSync h (file r) = Ok content /\
    includes (normalize h caseInsensitive content)
             (normalize h caseInsensitive searchTerm) = true /\
    matches r =
      lineMatches h (normalize h caseInsensitive searchTerm)
                  caseInsensitive content.

(** A file whose only line ends with a space, and a search term that ends
    with that space. *)
Definition trailingSpaceFile : jsstring := str "close ".

(** A file whose only line is indented, and a search term that starts with
    the indentation. *)
Definition indentedFile : jsstring := str "  rsi = ta.rsi(close, 14)".

(** Scenario B: 350 lines, 25 of which are function-pattern lines. *)
Definition scenarioB : jsstring :=
  join [LF] (replicate 25 (str "f(x) =>") ++ replicate 325 (str "// note")).

(** Scenario C: a file with the line [rsi_value = close]. *)
Definition scenarioC : jsstring :=
  str "// momentum" ++ [LF] ++ str "rsi_value = close" ++ [LF].

(** ** The advertised tools *)

Inductive Schema : Type :=
| ListIndicatorsSchema
| AnalyzeIndicatorSchema
| SearchIndicatorSchema
| ExtractFunctionsSchema.

Record Tool : Type := {
  toolName : jsstring;
  description : jsstring;
  inputSchema : Schema
}.

(** The [ListToolsRequestSchema] handler of the four-tool server. *)
Definition listTools : list Tool :=
  [ {| toolName := str "list_indicators";
       description := str "List all available TradingView indicator files in the current directory";
       inputSchema := ListIndicatorsSchema |};
    {| toolName := str "analyze_indicator";
       description := str "Analyze a TradingView indicator file and extract key components";
       inputSchema := AnalyzeIndicatorSchema |};
    {| toolName := str "search_indicators";
       description := str "Search for specific terms across all indicator files";
       inputSchema := SearchIndicatorSchema |};
    {| toolName := str "extract_functions";
       description := str "Extract and list all functions from an indicator file";
       inputSchema := ExtractFunctionsSchema |} ].

(** ** The two-tool server *)

Module Simple.

(** The filter callback of the two-tool server's [getIndicatorFiles]. *)
Definition keepFile (h : Host) (pattern : option jsstring) (file : jsstring)
  : bool :=
  if startsWith file (str ".") || includes file (str "node_modules") ||
     endsWith file (str ".js") || endsWith file (str ".ts") ||
     endsWith file (str ".json") || endsWith file (str ".md") ||
     includes file (str "package") || includes file (str "tsconfig") ||
     includes file (str "Dockerfile") || endsWith file (str ".rar")
  then false
  else match pattern with
       | Some (c :: p) =>
           includes (toLowerCase h file) (toLowerCase h (c :: p))
       | _ => true
       end.

Definition getIndicatorFiles (h : Host) (pattern : option jsstring)
  : result (list jsstring) :=
  tryCatch
    (let* files := readdirSync h in
     Ok (List.filter (keepFile h pattern) files))
    (fun _ => Ok []).

Definition listTools : list Tool :=
  [ {| toolName := str "list_indicators";
       description := str "List all TradingView indicator files";
       inputSchema := ListIndicatorsSchema |};
    {| toolName := str "analyze_indicator";
       description := str "Analyze a TradingView indicator file";
       inputSchema := AnalyzeIndicatorSchema |} ].

(** [xs.map(f)] for a callback that may throw. *)
Fixpoint mapM {A B : Type} (f : A -> result B) (xs : list A)
  : result (list B) :=
  match xs with
  | [] => Ok []
  | x :: xs' => let* y := f x in let* ys := mapM f xs' in Ok (y :: ys)
  end.

(** [s || 'None found'] on a string: the empty string is falsy. *)
Definition orNoneFound (s : jsstring) : jsstring :=
  match s with
  | [] => str "None found"
  | _ => s
  end.

(** The [analyze_indicator] case, with its own [try]/[catch]. *)
Definition analyze (h : Host) (indicatorName : jsstring) : result Response :=
  tryCatch
    (let* content := readFileSync h indicatorName in
     let lines := split LF content in
     let functions :=
       List.filter (fun line => isFunctionLine (trim line)) lines in
     let plots :=
       List.filter (fun line => includes line (str "plot(")) lines in
     let inputs :=
       List.filter (fun line => includes line (str "input")) lines in
     let* keyFunctions :=
       mapM (fun f => let* n := at0 (split LPAREN (trim f)) in
                      Ok (str "- " ++ n))
            (slice functions 0 5) in
     let analysis :=
       join [LF]
         [ str "# Analysis of " ++ indicatorName;
           [];
           str "## File Stats";
           str "- Lines: " ++ numToString (length lines);
           str "- Functions: " ++ numToString (length functions);
           str "- Plots: " ++ numToString (length plots);
           str "- Inputs: " ++ numToString (length inputs);
           [];
           str "## Key Functions Found";
           orNoneFound (join [LF] keyFunctions);
           [];
           str "## Plot Commands";
           orNoneFound
             (join [LF] (List.map (fun p => str "- " ++ trim p)
                                  (slice plots 0 3)));
           [] ] in
     Ok (textResponse analysis))
    (fun error =>
       Ok {| text := str "Error reading file " ++ [DQUOTE] ++ indicatorName ++
                     [DQUOTE] ++ str ": " ++ exnToString error;
             isError := true |}).

(** The [CallToolRequestSchema] handler of the two-tool server: the
    [switch] is not inside a [try], so what it throws leaves the handler. *)
Definition handleTool (h : Host) (name : jsstring) (args : jsargs)
  : result Response :=
  if strEq name (str "list_indicators") then
    let* pattern := parseListIndicators h args in
    let* indicators := getIndicatorFiles h pattern in
    Ok (textResponse (renderList indicators))
  else if strEq name (str "analyze_indicator") then
    let* indicatorName := parseIndicatorName h args in
    analyze h indicatorName
  else Throw (newError (str "Unknown tool: " ++ name)).

End Simple.

(** ** Further specification-level vocabulary *)

(** A file of the corpus that the search records: readable, with the
    normalized term in its normalized content. *)
Definition hit (h : Host) (searchTerm : jsstring) (caseInsensitive : bool)
  (indicator : jsstring) : bool :=
  match readFileSync h indicator with
  | Ok content =>
      includes (normalize h caseInsensitive content)
               (normalize h caseInsensitive searchTerm)
  | Throw _ => false
  end.

Definition readable (h : Host) (indicator : jsstring) : bool :=
  match readFileSync h indicator with
  | Ok _ => true
  | Throw _ => false
  end.

(** The 1-based numbers of the function-pattern lines, ascending. *)
Definition functionLineNumbers (content : jsstring) : list nat :=
  List.map S
    (List.filter
       (fun i => match split LF content !! i with
                 | Some raw => isFunctionLine (trim raw)
                 | None => false
                 end)
       (seq 0 (length (split LF content)))).

(** Low < Medium < High. *)
Definition tierRank (c : Complexity) : nat :=
  match c with
  | Low => 0
  | Medium => 1
  | High => 2
  end.

(** An identifier followed by white space, possibly none. *)
Definition IdentThenSpace (s : jsstring) : Prop :=
  exists c ident ws,
    s = c :: ident ++ ws /\
    isIdentStart c = true /\
    Forall (fun d => isIdentChar d = true) ident /\
    Forall (fun d => isWhiteSpace d = true) ws.

(** The declarative reading of [/^(var\s+)?[a-zA-Z_][a-zA-Z0-9_]*\s*=/]. *)
Definition VariableHead (s : jsstring) : Prop :=
  HeadThenStop EQUALS s \/
  exists w ws rest,
    s = str "var" ++ (w :: ws) ++ rest /\
    Forall (fun d => isWhiteSpace d = true) (w :: ws) /\
    HeadThenStop EQUALS rest.

(** A host whose directory and files cannot be read. *)
Definition brokenDirectory : Host :=
  {| readdirSync := Throw (newError (str "EACCES: permission denied"));
     readFileSync := fun _ => Throw (newError (str "EACCES: permission denied"));
     toLowerCase := fun s => s;
     zodMessage := fun _ => str "Invalid input" |}.

(** The span the extractor builds at index [i] of [lines], whose line there
    is [raw]. *)
Definition spanAt (lines : list jsstring) (i : nat) (raw : jsstring)
  : FunctionSpan :=
  {| name := functionName (trim raw);
     startLine := i + 1;
     endLine :=
       default i (findFunctionEnd (lookahead lines i) i scanStart) + 1;
     code :=
       join [LF]
         (slice lines i
            (default i (findFunctionEnd (lookahead lines i) i scanStart)
             + 1)) |}.

(** Whether the line at index [i] is a function-pattern line. *)
Definition functionAt (lines : list jsstring) (i : nat) : bool :=
  match lines !! i with
  | Some raw => isFunctionLine (trim raw)
  | None => false
  end.

(** An identifier: a letter or underscore, then letters, digits or
    underscores. *)
Definition Identifier (s : jsstring) : Prop :=
  exists c ident,
    s = c :: ident /\
    isIdentStart c = true /\
    Forall (fun d => isIdentChar d = true) ident.

(** Number of lines before index [i] whose trimmed, normalized form
    contains [term]. *)
Definition earlierMatches (h : Host) (term : jsstring)
  (caseInsensitive : bool) (content : jsstring) (i : nat) : nat :=
  length (List.filter
            (fun m => includes (normalize h caseInsensitive (line m)) term)
            (take i (numberedTrimmedLines content))).

(** Line matching read without the cap: in every recorded file a line is
    reported exactly when its trimmed, normalized form contains the
    normalized term. *)
Definition everyMatchingLineReported (h : Host) (indicators : list jsstring)
  (searchTerm : jsstring) (caseInsensitive : bool) : Prop :=
  forall results,
    searchIndicators h indicators searchTerm caseInsensitive = Ok results ->
    Forall (fun r => forall content,
      readFileSync h (file r) = Ok content ->
      forall i raw, split LF content !! i = Some raw ->
        ({| line := trim raw; number := i + 1 |} ∈ matches r <->
         includes (normalize h caseInsensitive (trim raw))
                  (normalize h caseInsensitive searchTerm) = true)) results.

(** Four lines that all hold the term [plot]. *)
Definition fourMatches : jsstring :=
  join [LF] (replicate 4 (str "plot(close)")).

(** * Properties *)

(** ** Strings *)

Lemma split_cons sep s : exists x xs, split sep s = x :: xs.
Proof.
  induction s as [|c s IH]; simpl; [by eauto|].
  destruct (c =? sep)%N; [by eauto|].
  destruct IH as (x & xs & ->). by eauto.
Qed.

Lemma at0_split sep s : at0 (split sep s) = Ok (hd [] (split sep s)).
Proof. by destruct (split_cons sep s) as (x & xs & ->). Qed.

Lemma length_split sep s : length (split sep s) = S (occurrences sep s).
Proof.
  unfold occurrences. induction s as [|c s IH]; simpl; [done|].
  rewrite (N.eqb_sym sep c). destruct (c =? sep)%N; simpl.
  - by rewrite IH.
  - destruct (split_cons sep s) as (x & xs & Hs).
    rewrite Hs in IH |- *. done.
Qed.

Lemma split_snoc sep s : split sep (s ++ [sep]) = split sep s ++ [[]].
Proof.
  induction s as [|c s IH]; simpl.
  - by rewrite N.eqb_refl.
  - rewrite IH. destruct (c =? sep)%N; [done|].
    by destruct (split_cons sep s) as (x & xs & ->).
Qed.

Lemma split_snoc_sep sep s : last (split sep (s ++ [sep])) = Some [].
Proof. by rewrite split_snoc, last_snoc. Qed.

Lemma startsWith_app s t : startsWith (s ++ t) s = true.
Proof.
  induction s as [|c s IH]; simpl; [done|]. by rewrite N.eqb_refl, IH.
Qed.

Lemma startsWith_inv s p : startsWith s p = true -> exists r, s = p ++ r.
Proof.
  revert s. induction p as [|d p IH]; intros s H; simpl in *; [by eauto|].
  destruct s as [|c s]; [done|].
  apply andb_true_iff in H as [Hc Hs]. apply N.eqb_eq in Hc as ->.
  destruct (IH _ Hs) as (r & ->). by eauto.
Qed.

Lemma includes_startsWith s t : startsWith s t = true -> includes s t = true.
Proof. intros H. destruct s; simpl; by rewrite H. Qed.

Lemma includes_spec s t :
  includes s t = true <-> exists a b, s = a ++ t ++ b.
Proof.
  split.
  - induction s as [|c s IH]; simpl; intros H.
    + rewrite orb_false_r in H. apply startsWith_inv in H as (r & ->).
      by exists [], r.
    + apply orb_true_iff in H as [H|H].
      * apply startsWith_inv in H as (r & ->). by exists [], r.
      * destruct (IH H) as (a & b & ->). by exists (c :: a), b.
  - intros (a & b & ->). induction a as [|c a IH]; simpl.
    + apply includes_startsWith, startsWith_app.
    + by rewrite IH, orb_true_r.
Qed.

Lemma includes_singleton s c : includes s [c] = true <-> c ∈ s.
Proof.
  rewrite includes_spec. split.
  - intros (a & b & ->). set_solver.
  - intros (a & b & ->)%list_elem_of_split. by exists a, b.
Qed.

(** ** Line classifier *)

Lemma isIdentChar_range c : isIdentChar c = true -> (48 <= c <= 122)%N.
Proof.
  unfold isIdentChar, isIdentStart.
  rewrite !orb_true_iff, !andb_true_iff, !N.eqb_eq, !N.leb_le. lia.
Qed.

Lemma isWhiteSpace_range c : isWhiteSpace c = true -> (c <= 32 \/ 160 <= c)%N.
Proof.
  unfold isWhiteSpace.
  rewrite !orb_true_iff, !andb_true_iff, !N.eqb_eq, !N.leb_le. lia.
Qed.

Lemma whiteSpace_not_ident c : isWhiteSpace c = true -> isIdentChar c = false.
Proof.
  intros Hw%isWhiteSpace_range. apply not_true_is_false.
  intros Hi%isIdentChar_range. lia.
Qed.

Lemma dropWhile_app_all p a b :
  Forall (fun d => p d = true) a -> dropWhile p (a ++ b) = dropWhile p b.
Proof. induction 1 as [|d a Hd _ IH]; simpl; [done|]. by rewrite Hd. Qed.

Lemma dropWhile_split p s :
  exists a, s = a ++ dropWhile p s /\ Forall (fun d => p d = true) a.
Proof.
  induction s as [|c s (a & Ha & Hall)]; simpl; [by exists []|].
  destruct (p c) eqn:Hc.
  - exists (c :: a). split; [simpl; by f_equal | by constructor].
  - by exists [].
Qed.

Lemma matchHead_spec stop s :
  isIdentChar stop = false -> isWhiteSpace stop = false ->
  matchHead stop s = true <-> HeadThenStop stop s.
Proof.
  intros Hstop_id Hstop_ws. split.
  - destruct s as [|c s]; simpl; [done|].
    intros [Hc H]%andb_true_iff.
    destruct (dropWhile_split isIdentChar s) as (ident & Hs & Hident).
    destruct (dropWhile_split isWhiteSpace (dropWhile isIdentChar s))
      as (ws & Hs' & Hws).
    destruct (dropWhile isWhiteSpace (dropWhile isIdentChar s))
      as [|d rest]; [done|].
    apply N.eqb_eq in H as ->.
    exists c, ident, ws, rest. by rewrite <- Hs', <- Hs.
  - intros (c & ident & ws & rest & -> & Hc & Hident & Hws). simpl.
    rewrite Hc, (dropWhile_app_all _ _ _ Hident). simpl.
    assert (dropWhile isIdentChar (ws ++ stop :: rest) = ws ++ stop :: rest)
      as ->.
    { destruct Hws as [|w ws Hw _]; simpl.
      - by rewrite Hstop_id.
      - by rewrite (whiteSpace_not_ident _ Hw). }
    rewrite (dropWhile_app_all _ _ _ Hws). simpl.
    by rewrite Hstop_ws, N.eqb_refl.
Qed.

Lemma immediateCallHead_spec s :
  immediateCallHead s = true <-> ImmediateCallHead s.
Proof.
  split.
  - destruct s as [|c s]; simpl; [done|].
    intros [Hc H]%andb_true_iff.
    destruct (dropWhile_split isIdentChar s) as (ident & Hs & Hident).
    destruct (dropWhile isIdentChar s) as [|d rest]; [done|].
    apply N.eqb_eq in H as ->. exists c, ident, rest. by rewrite <- Hs.
  - intros (c & ident & rest & -> & Hc & Hident). simpl.
    rewrite Hc, (dropWhile_app_all _ _ _ Hident). done.
Qed.

(** C2, as amended. A line is classified Function exactly when its trimmed
    form starts with an identifier (first character a letter or underscore,
    then letters, digits or underscores), followed by any number of
    white-space characters, possibly none, and then the character [(]. *)
Theorem function_line_iff_head_then_paren (line : jsstring) :
  isFunctionLine (trim line) = true <-> HeadThenStop LPAREN (trim line).
Proof. unfold isFunctionLine. by apply matchHead_spec. Qed.

(** C2, as the specification words it: an identifier with [(] immediately
    after it. The line [foo (x)] is classified Function although a space
    separates the identifier from the parenthesis. *)
Lemma function_line_not_immediate :
  isFunctionLine (trim (str "foo (x)")) = true /\
  ~ ImmediateCallHead (trim (str "foo (x)")).
Proof.
  split; [reflexivity|].
  rewrite <- immediateCallHead_spec. by vm_compute.
Qed.

(** ** File analyzer *)

Lemma classifyLine_eq b line :
  classifyLine b line =
  Ok {| b_functions := b_functions b ++
          (if isFunctionLine (trim line) then [functionName (trim line)]
           else []);
        b_variables := b_variables b ++
          (if isVariableLine (trim line) then [variableName (trim line)]
           else []);
        b_plots := b_plots b ++
          (if isPlotLine (trim line) then [trim line] else []);
        b_inputs := b_inputs b ++
          (if isInputLine (trim line) then [trim line] else []);
        b_alerts := b_alerts b ++
          (if isAlertLine (trim line) then [trim line] else []) |}.
Proof.
  unfold classifyLine, push, functionName, variableName.
  rewrite !at0_split.
  destruct (isFunctionLine _), (isVariableLine _), (isPlotLine _),
    (isInputLine _), (isAlertLine _); simpl; by rewrite ?app_nil_r.
Qed.

Lemma forOf_classifyLine lines b :
  forOf classifyLine lines b =
  Ok {| b_functions := b_functions b ++
          List.map functionName
            (List.filter isFunctionLine (List.map trim lines));
        b_variables := b_variables b ++
          List.map variableName
            (List.filter isVariableLine (List.map trim lines));
        b_plots := b_plots b ++
          List.filter isPlotLine (List.map trim lines);
        b_inputs := b_inputs b ++
          List.filter isInputLine (List.map trim lines);
        b_alerts := b_alerts b ++
          List.filter isAlertLine (List.map trim lines) |}.
Proof.
  revert b. induction lines as [|line lines IH]; intros b; simpl.
  - rewrite !app_nil_r. by destruct b.
  - rewrite classifyLine_eq. simpl. rewrite IH. simpl.
    destruct (isFunctionLine _), (isVariableLine _), (isPlotLine _),
      (isInputLine _), (isAlertLine _); simpl;
      by rewrite <- ?app_assoc, ?app_nil_r.
Qed.

Lemma analyzeIndicatorCode_eq content :
  analyzeIndicatorCode content =
  Ok {| functions := take 10 (allFunctions content);
        variables := take 15 (allVariables content);
        plots := take 10 (allPlots content);
        inputs := take 10 (allInputs content);
        alerts := take 5 (allAlerts content);
        complexity := tierOf content;
        lineCount := length (split LF content) |}.
Proof.
  unfold analyzeIndicatorCode. rewrite forOf_classifyLine. simpl.
  unfold slice, tierOf, functionCount, plotCount, allFunctions. simpl.
  rewrite !length_map. fold (trimmedLines content).
  done.
Qed.

(** Replace a run of the analyzer by the report it returns. *)
Ltac run_analysis :=
  eexists; split; [apply analyzeIndicatorCode_eq|]; simpl.

Lemma highCondition_iff content :
  ((300 <? length (split LF content)) || (20 <? functionCount content) ||
   (5 <? plotCount content)) = true <-> highCondition content.
Proof.
  unfold highCondition. rewrite !orb_true_iff, !Nat.ltb_lt. tauto.
Qed.

Lemma mediumCondition_iff content :
  ((100 <? length (split LF content)) || (10 <? functionCount content)) = true
  <-> mediumCondition content.
Proof. unfold mediumCondition. by rewrite !orb_true_iff, !Nat.ltb_lt. Qed.

(** C1, as amended. The tier is computed from the line count and the
    pre-truncation counts of function-pattern lines and plot lines by
    escalating overrides: it is High exactly when the High condition holds,
    it is at least Medium exactly when the Medium condition or the High
    condition holds (so Medium exactly when the Medium condition holds and
    the High condition does not), and Low otherwise. *)
Theorem tier_by_escalating_overrides (content : jsstring) :
  exists r, analyzeIndicatorCode content = Ok r /\
    (complexity r = High <-> highCondition content) /\
    (complexity r <> Low <->
       mediumCondition content \/ highCondition content) /\
    (complexity r = Medium <->
       mediumCondition content /\ ~ highCondition content) /\
    (complexity r = Low <->
       ~ mediumCondition content /\ ~ highCondition content).
Proof.
  run_analysis. unfold tierOf.
  pose proof (highCondition_iff content) as Hh.
  pose proof (mediumCondition_iff content) as Hm.
  destruct (_ || _ || _) eqn:Eh in Hh |- *;
    [|destruct (_ || _) eqn:Em in Hm |- *];
    repeat split; try done; try tauto; intros; intuition congruence.
Qed.

(** C1, as the specification words it: "at least Medium" read as equivalent
    to the Medium condition alone. Six plot lines give High with six lines
    and six function-pattern lines, so the Medium condition fails while the
    tier is above Low. *)
Lemma tier_not_by_independent_thresholds :
  ~ tierByIndependentThresholds sixPlots.
Proof.
  intros H. destruct (H _ (analyzeIndicatorCode_eq sixPlots)) as [[Hm _] _].
  assert (mediumCondition sixPlots) as [Hl|Hf].
  { apply Hm. by vm_compute. }
  - vm_compute in Hl. lia.
  - vm_compute in Hf. lia.
Qed.

Lemma join_cons2 sep x y a :
  join sep (x :: y :: a) = x ++ sep ++ join sep (y :: a).
Proof. done. Qed.

Lemma join_split sep s : join [sep] (split sep s) = s.
Proof.
  induction s as [|c s IH]; simpl; [done|].
  destruct (split_cons sep s) as (x & xs & Hs). rewrite Hs in IH |- *.
  destruct (N.eqb_spec c sep) as [->|Hne].
  - by rewrite join_cons2, IH.
  - destruct xs as [|y xs]; [by simpl in *; subst|].
    rewrite join_cons2 in IH |- *. by rewrite <- IH.
Qed.

Lemma split_no_sep sep s : Forall (fun seg => sep ∉ seg) (split sep s).
Proof.
  induction s as [|c s IH]; simpl.
  - constructor; [apply not_elem_of_nil | constructor].
  - destruct (N.eqb_spec c sep) as [->|Hne].
    + constructor; [apply not_elem_of_nil | done].
    + destruct (split_cons sep s) as (x & xs & Hs). rewrite Hs in IH |- *.
      apply Forall_cons in IH as [Hx Hxs].
      constructor; [|done]. apply not_elem_of_cons. split; [congruence|done].
Qed.

(** C5. The five lists of the report stay within their caps (10, 15, 10,
    10 and 5), and each is the first so many matches of its category in file
    order. *)
Theorem analysis_lists_capped (content : jsstring) :
  exists r, analyzeIndicatorCode content = Ok r /\
    (length (functions r) <= 10 /\ length (variables r) <= 15 /\
     length (plots r) <= 10 /\ length (inputs r) <= 10 /\
     length (alerts r) <= 5) /\
    functions r = take 10 (allFunctions content) /\
    variables r = take 15 (allVariables content) /\
    plots r = take 10 (allPlots content) /\
    inputs r = take 10 (allInputs content) /\
    alerts r = take 5 (allAlerts content).
Proof.
  run_analysis.
  rewrite !length_take. repeat split; lia.
Qed.

(** C7. [lineCount] is the number of segments of the content split at every
    newline: the segments contain no newline and joined by newlines give the
    content back, there is one more of them than there are newlines, a
    content that ends with a newline has an empty last segment, and the
    three-line text of scenario A, which ends with a newline, has
    [lineCount] 4. *)
Theorem lineCount_is_split_length :
  (forall content, exists r, analyzeIndicatorCode content = Ok r /\
     lineCount r = length (split LF content) /\
     lineCount r = S (occurrences LF content) /\
     join [LF] (split LF content) = content /\
     Forall (fun seg => LF ∉ seg) (split LF content)) /\
  (forall body, last (split LF (body ++ [LF])) = Some []) /\
  (exists r, analyzeIndicatorCode scenarioA = Ok r /\ lineCount r = 4).
Proof.
  split; [|split].
  - intros content. run_analysis.
    split; [done|]. split; [apply length_split|].
    split; [apply join_split | apply split_no_sep].
  - intros body. apply split_snoc_sep.
  - run_analysis. reflexivity.
Qed.

(** C9. [analyzeIndicatorCode] returns a report for every string, never an
    error; the report respects the caps and counts at least one line. On
    the empty string every category is empty and the tier is Low. *)
Theorem analyzeIndicatorCode_total :
  (forall content, exists r, analyzeIndicatorCode content = Ok r /\
     length (functions r) <= 10 /\ length (variables r) <= 15 /\
     length (plots r) <= 10 /\ length (inputs r) <= 10 /\
     length (alerts r) <= 5 /\ 1 <= lineCount r) /\
  analyzeIndicatorCode [] =
    Ok {| functions := []; variables := []; plots := []; inputs := [];
          alerts := []; complexity := Low; lineCount := 1 |}.
Proof.
  split; [|reflexivity].
  intros content. run_analysis.
  rewrite !length_take, length_split. repeat split; lia.
Qed.

(** ** Function body extractor *)

Lemma includes_singleton_occurrences s c :
  includes s [c] = (0 <? occurrences c s).
Proof.
  unfold occurrences. induction s as [|d s IH]; simpl; [done|].
  rewrite IH, andb_true_r, (N.eqb_sym c d). by destruct (d =? c)%N.
Qed.

(** C3, as amended. In the brace scan a line that contains [{] adds one to
    the running count however many [{] it holds, and a line that contains
    [}] takes one away however many [}] it holds; a line with exactly one
    [{] and one [}] leaves the count unchanged. *)
Theorem scanBraces_counts_lines (st : ScanState) (line : jsstring) :
  braceCount (fst (scanBraces st line)) =
    (braceCount st
     + (if (0 <? occurrences LBRACE line)%nat then 1 else 0)
     - (if (0 <? occurrences RBRACE line)%nat then 1 else 0))%Z /\
  (occurrences LBRACE line = 1 -> occurrences RBRACE line = 1 ->
   braceCount (fst (scanBraces st line)) = braceCount st).
Proof.
  unfold scanBraces. rewrite !includes_singleton_occurrences. split.
  - destruct (0 <? occurrences LBRACE line),
      (0 <? occurrences RBRACE line); simpl; lia.
  - intros -> ->. simpl. lia.
Qed.

Lemma scanBraces_counts_lines_witness :
  braceCount (fst (scanBraces scanStart (str "if (x) { y }"))) = 0%Z.
Proof.
  apply (scanBraces_counts_lines scanStart (str "if (x) { y }"));
    reflexivity.
Defined.

(** C3, as the specification words it: every brace counted. On [{{] the
    count goes up by one, not by two. *)
Lemma scanBraces_not_per_brace : ~ countsEveryBrace scanStart (str "{{").
Proof. unfold countsEveryBrace. by vm_compute. Qed.

Lemma linesWith_nonneg c ls : (0 <= linesWith c ls)%Z.
Proof. unfold linesWith. lia. Qed.

Lemma linesWith_cons c l ls :
  linesWith c (l :: ls) =
  ((if includes l [c] then 1 else 0) + linesWith c ls)%Z.
Proof.
  unfold linesWith. simpl. destruct (includes l [c]); simpl; lia.
Qed.

Lemma closesFrom_0 st l rest :
  closesFrom st (l :: rest) 0 = snd (scanBraces st l).
Proof.
  unfold closesFrom, scanBraces. simpl.
  rewrite !linesWith_cons. unfold linesWith. simpl.
  destruct (includes l [RBRACE]), (includes l [LBRACE]),
    (inFunction st) eqn:E; simpl; rewrite ?E; simpl;
    try done; rewrite ?andb_true_r, ?andb_false_r;
    try done; f_equal; lia.
Qed.

Lemma closesFrom_S st l rest k :
  closesFrom st (l :: rest) (S k) = closesFrom (fst (scanBraces st l)) rest k.
Proof.
  unfold closesFrom. simpl. destruct (rest !! k) as [l'|]; [|done].
  rewrite !linesWith_cons. unfold scanBraces.
  pose proof (linesWith_nonneg LBRACE (take (S k) rest)).
  destruct (includes l' [RBRACE]); [|done].
  apply eq_true_iff_eq.
  destruct (includes l [LBRACE]), (includes l [RBRACE]);
    cbn -[Z.add Z.sub Z.ltb Z.eqb linesWith];
    destruct (inFunction st); cbn -[Z.add Z.sub Z.ltb Z.eqb linesWith];
    rewrite ?andb_true_iff, ?Z.ltb_lt, ?Z.eqb_eq; lia.
Qed.

Lemma findFunctionEnd_spec w j st :
  match findFunctionEnd w j st with
  | Some r =>
      exists k, r = j + k /\ closesFrom st w k = true /\
                forall k', k' < k -> closesFrom st w k' = false
  | None => forall k, closesFrom st w k = false
  end.
Proof.
  revert j st. induction w as [|l rest IH]; intros j st; simpl.
  - intros k. unfold closesFrom. by rewrite lookup_nil.
  - pose proof (closesFrom_0 st l rest) as H0.
    pose proof (closesFrom_S st l rest) as HS.
    destruct (scanBraces st l) as [st' stop]. simpl in *.
    destruct stop.
    + exists 0. split; [lia|]. split; [done|]. lia.
    + specialize (IH (S j) st').
      destruct (findFunctionEnd rest (S j) st') as [r|].
      * destruct IH as (k & -> & Hk & Hlt). exists (S k).
        split; [lia|]. split; [by rewrite HS|].
        intros [|k'] ?; [done|]. rewrite HS. apply Hlt. lia.
      * intros [|k]; [done|]. by rewrite HS.
Qed.

Lemma lookahead_length lines i :
  length (lookahead lines i) = Nat.min (i + 50) (length lines) - i.
Proof. unfold lookahead, slice. rewrite length_take, length_drop. lia. Qed.

Lemma closesFrom_lt st w k : closesFrom st w k = true -> k < length w.
Proof.
  unfold closesFrom. destruct (w !! k) eqn:E; [|done].
  intros _. by eapply lookup_lt_Some.
Qed.

Lemma functionEnd_bounds lines i :
  i < length lines ->
  i <= default i (findFunctionEnd (lookahead lines i) i scanStart) /\
  default i (findFunctionEnd (lookahead lines i) i scanStart) < i + 50 /\
  default i (findFunctionEnd (lookahead lines i) i scanStart) < length lines.
Proof.
  intros Hi. pose proof (findFunctionEnd_spec (lookahead lines i) i scanStart).
  destruct (findFunctionEnd _ _ _) as [r|]; simpl; [|lia].
  destruct H as (k & -> & Hk%closesFrom_lt & _).
  rewrite lookahead_length in Hk. lia.
Qed.

Lemma extractAt_spanOf lines functions i :
  i < length lines -> Forall (spanOf lines) functions ->
  exists spans, extractAt lines functions i = Ok spans /\
                Forall (spanOf lines) spans.
Proof.
  intros Hi Hacc. unfold extractAt, nth_.
  destruct (lookup_lt_is_Some_2 lines i Hi) as [raw Hraw]. rewrite Hraw.
  simpl. destruct (isFunctionLine (trim raw)) eqn:Hfn; [|by eauto].
  fold (lookahead lines i).
  destruct (0 <? length _); [|by eauto].
  rewrite at0_split. simpl. eexists. split; [done|].
  apply Forall_app. split; [done|]. constructor; [|done].
  exists i, raw. simpl. by rewrite Nat.add_1_r.
Qed.

Lemma forOf_extractAt lines n a functions :
  a + n <= length lines -> Forall (spanOf lines) functions ->
  exists spans, forOf (extractAt lines) (seq a n) functions = Ok spans /\
                Forall (spanOf lines) spans.
Proof.
  revert a functions. induction n as [|n IH]; intros a functions Ha Hacc.
  - simpl. by eauto.
  - simpl. destruct (extractAt_spanOf lines functions a) as (s & -> & Hs);
      [lia|done|].
    simpl. apply IH; [lia|done].
Qed.

Lemma elem_of_join sep (a : list jsstring) l c :
  l ∈ a -> c ∈ l -> c ∈ join sep a.
Proof.
  intros Hl Hc. induction a as [|x a IH]; [by apply elem_of_nil in Hl|].
  destruct a as [|y a].
  - apply list_elem_of_singleton in Hl as ->. done.
  - rewrite join_cons2, !elem_of_app.
    apply elem_of_cons in Hl as [->|Hl]; [by left|]. right. right. by apply IH.
Qed.

Lemma lines_without c content :
  includes content [c] = false ->
  Forall (fun l => includes l [c] = false) (split LF content).
Proof.
  intros H. apply Forall_forall. intros l Hl.
  apply not_true_is_false. intros Hc%includes_singleton.
  apply not_true_iff_false in H. apply H, includes_singleton.
  rewrite <- (join_split LF content). by eapply elem_of_join.
Qed.

Lemma linesWith_none c ls :
  Forall (fun l => includes l [c] = false) ls -> linesWith c ls = 0%Z.
Proof.
  unfold linesWith. induction 1 as [|l ls Hl _ IH]; simpl; [done|].
  by rewrite Hl.
Qed.

Lemma closesAt_without_lbrace lines i k :
  Forall (fun l => includes l [LBRACE] = false) lines ->
  closesAt (lookahead lines i) k = false.
Proof.
  intros H. unfold closesAt, closesFrom.
  destruct (lookahead lines i !! k); [|done].
  rewrite linesWith_none; [simpl; by rewrite andb_false_r|].
  unfold lookahead, slice. by apply Forall_take, Forall_take, Forall_drop.
Qed.

Lemma spanOf_facts lines f :
  spanOf lines f ->
  1 <= startLine f /\ startLine f <= endLine f /\
  endLine f <= startLine f + 49 /\ endLine f <= length lines /\
  ((forall k, closesAt (lookahead lines (startLine f - 1)) k = false) ->
   endLine f = startLine f) /\
  (forall k, closesAt (lookahead lines (startLine f - 1)) k = true ->
     (forall k', k' < k ->
        closesAt (lookahead lines (startLine f - 1)) k' = false) ->
     endLine f = startLine f + k) /\
  (Forall (fun l => includes l [LBRACE] = false) lines ->
   endLine f = startLine f).
Proof.
  intros (i & raw & Hraw & _ & _ & Hs & He & _).
  apply lookup_lt_Some in Hraw.
  destruct (functionEnd_bounds lines i Hraw) as (H1 & H2 & H3).
  replace (startLine f - 1) with i by lia.
  pose proof (findFunctionEnd_spec (lookahead lines i) i scanStart) as Hspec.
  pose proof (closesAt_without_lbrace lines i) as Hwithout.
  unfold closesAt in *.
  destruct (findFunctionEnd _ _ _) as [r|]; simpl in *.
  - destruct Hspec as (k & -> & Hk & Hlt).
    repeat split; try lia.
    + intros Hnone. by rewrite Hnone in Hk.
    + intros k2 Hk2 Hlt2.
      destruct (Nat.lt_trichotomy k k2) as [Hc|[->|Hc]]; [|lia|].
      * by rewrite (Hlt2 _ Hc) in Hk.
      * by rewrite (Hlt _ Hc) in Hk2.
    + intros Hnb. by rewrite Hwithout in Hk.
  - repeat split; try lia.
    intros k Hk _. by rewrite Hspec in Hk.
Qed.

(** C4. [extractFunctions] returns spans for every content, and each span
    has [startLine <= endLine <= startLine + 49] with [endLine] at most the
    number of lines. Its end is the first line of the 50-line window on
    which the scan, having met an opening line, is back at count zero on a
    closing line; when the window holds no such line the span is the start
    line alone. A file without [{], so in particular a file without any
    brace, gives only such one-line spans. *)
Theorem spans_well_formed (content : jsstring) :
  exists spans, extractFunctions content = Ok spans /\
    Forall (fun f =>
      1 <= startLine f /\ startLine f <= endLine f /\
      endLine f <= startLine f + 49 /\
      endLine f <= length (split LF content) /\
      ((forall k,
          closesAt (lookahead (split LF content) (startLine f - 1)) k = false)
       -> endLine f = startLine f) /\
      (forall k,
         closesAt (lookahead (split LF content) (startLine f - 1)) k = true ->
         (forall k', k' < k ->
            closesAt (lookahead (split LF content) (startLine f - 1)) k'
            = false) ->
         endLine f = startLine f + k) /\
      (includes content [LBRACE] = false -> endLine f = startLine f)) spans.
Proof.
  unfold extractFunctions.
  destruct (forOf_extractAt (split LF content) (length (split LF content))
              0 []) as (spans & -> & Hspans); [lia|done|].
  exists spans. split; [done|]. eapply Forall_impl; [exact Hspans|].
  intros f Hf. simpl.
  destruct (spanOf_facts _ _ Hf) as (H1 & H2 & H3 & H4 & H5 & H6 & H7).
  repeat split; try done.
  intros Hnb. by apply H7, lines_without.
Qed.

Lemma spans_well_formed_witness :
  exists spans, extractFunctions (str "foo(x)") = Ok spans /\
    Forall (fun f => endLine f = startLine f) spans.
Proof.
  destruct (spans_well_formed (str "foo(x)")) as (spans & Hrun & Hall).
  exists spans. split; [exact Hrun|].
  eapply Forall_impl; [exact Hall|].
  intros f (_ & _ & _ & _ & _ & _ & Hnb). apply Hnb. reflexivity.
Defined.

(** Scenario A: one span, [foo], lines 1 to 3. *)
Example extractFunctions_scenarioA :
  extractFunctions scenarioA =
  Ok [{| name := str "foo"; startLine := 1; endLine := 3;
         code := str "foo(x) {" ++ [LF] ++ str "  y = 1" ++ [LF] ++ str "}" |}].
Proof. reflexivity. Qed.

(** ** Corpus search *)

Lemma readIndicatorFile_throw h filename error :
  readFileSync h filename = Throw error ->
  readIndicatorFile h filename =
  Throw (newError (str "Failed to read indicator file " ++ [DQUOTE] ++
                   filename ++ [DQUOTE] ++ str ": " ++ exnToString error)).
Proof. unfold readIndicatorFile. by intros ->. Qed.

Section CorpusSearch.

Context (h : Host) (searchTerm : jsstring) (caseInsensitive : bool).

Lemma searchFile_recorded results indicator :
  Forall (recorded h searchTerm caseInsensitive) results ->
  exists results',
    searchFile h searchTerm caseInsensitive results indicator = Ok results' /\
    Forall (recorded h searchTerm caseInsensitive) results'.
Proof.
  intros Hacc. unfold searchFile, readIndicatorFile.
  destruct (readFileSync h indicator) as [content|error] eqn:Hread; simpl;
    [|by eauto].
  fold (normalize h caseInsensitive content).
  fold (normalize h caseInsensitive searchTerm).
  destruct (includes _ _) eqn:Hinc; simpl; [|by eauto].
  eexists. split; [done|]. apply Forall_app. split; [done|].
  constructor; [|done]. by exists content.
Qed.

Lemma searchIndicators_recorded indicators :
  exists results,
    searchIndicators h indicators searchTerm caseInsensitive = Ok results /\
    Forall (recorded h searchTerm caseInsensitive) results.
Proof.
  unfold searchIndicators.
  assert (Forall (recorded h searchTerm caseInsensitive) []) as Hnil by done.
  revert Hnil. generalize (@nil FileMatches) as results.
  induction indicators as [|indicator indicators IH]; intros results Hacc.
  - simpl. by eauto.
  - simpl.
    destruct (searchFile_recorded results indicator Hacc)
      as (results' & -> & Hacc').
    simpl. by apply IH.
Qed.

Lemma lineMatches_eq term content :
  lineMatches h term caseInsensitive content =
  take 3 (List.filter
            (fun m => includes (normalize h caseInsensitive (line m)) term)
            (numberedTrimmedLines content)).
Proof. done. Qed.

Lemma lineMatches_length term content :
  length (lineMatches h term caseInsensitive content) <= 3.
Proof. rewrite lineMatches_eq, length_take. lia. Qed.

Lemma lineMatches_sound term content m :
  m ∈ lineMatches h term caseInsensitive content ->
  exists raw,
    split LF content !! (number m - 1) = Some raw /\
    1 <= number m /\ line m = trim raw /\
    includes (normalize h caseInsensitive (trim raw)) term = true.
Proof.
  rewrite lineMatches_eq. intros Hm%subseteq_take.
  apply list_elem_of_In, filter_In in Hm as [Hin Hinc].
  apply list_elem_of_In, elem_of_lookup_imap in Hin as (i & raw & -> & Hraw).
  exists raw. simpl in *. replace (i + 1 - 1) with i by lia.
  repeat split; [done|lia|done].
Qed.

(** The first half of the corpus-search contract: a recorded file carries
    at most three matches, the first ones in file order. *)
Lemma search_matches_capped indicators :
  exists results,
    searchIndicators h indicators searchTerm caseInsensitive = Ok results /\
    Forall (fun r => length (matches r) <= 3) results.
Proof.
  destruct (searchIndicators_recorded indicators) as (results & Hrun & Hall).
  exists results. split; [done|]. eapply Forall_impl; [exact Hall|].
  intros r (content & _ & _ & ->). apply lineMatches_length.
Qed.

End CorpusSearch.

Lemma lineMatches_iff h term caseInsensitive content i raw :
  split LF content !! i = Some raw ->
  {| line := trim raw; number := i + 1 |}
    ∈ lineMatches h term caseInsensitive content <->
  includes (normalize h caseInsensitive (trim raw)) term = true /\
  earlierMatches h term caseInsensitive content i < 3.
Proof.
  intros Hraw. rewrite lineMatches_eq. unfold earlierMatches.
  set (P := fun m : LineMatch =>
              includes (normalize h caseInsensitive (line m)) term).
  set (x := {| line := trim raw; number := i + 1 |}).
  assert (numberedTrimmedLines content !! i = Some x) as Hx.
  { unfold numberedTrimmedLines. by rewrite list_lookup_imap, Hraw. }
  assert (forall y, y ∈ take i (numberedTrimmedLines content) ->
                    number y <> i + 1) as Hbefore.
  { intros y (j & Hy & Hj)%elem_of_take. unfold numberedTrimmedLines in Hy.
    rewrite list_lookup_imap in Hy.
    destruct (split LF content !! j); [|done].
    injection Hy as <-. simpl. lia. }
  split.
  - intros Hm.
    assert (P x = true) as HP.
    { apply subseteq_take in Hm.
      by apply list_elem_of_In, filter_In in Hm as [_ HP]. }
    split; [done|].
    rewrite <- (take_drop_middle _ _ _ Hx), List.filter_app in Hm.
    simpl List.filter in Hm. rewrite HP in Hm.
    apply elem_of_take in Hm as (j & Hj & Hlt).
    destruct (decide (j < length (List.filter P
                (take i (numberedTrimmedLines content))))) as [Hjk|]; [|lia].
    exfalso. rewrite lookup_app_l in Hj by done.
    apply list_elem_of_lookup_2, list_elem_of_In, filter_In in Hj as [Hin _].
    by apply list_elem_of_In, Hbefore in Hin.
  - intros [HP Hk]. change (P x = true) in HP.
    rewrite <- (take_drop_middle _ _ _ Hx), List.filter_app.
    simpl List.filter. rewrite HP. apply elem_of_take.
    exists (length (List.filter P (take i (numberedTrimmedLines content)))).
    split; [|done]. by apply list_lookup_middle.
Qed.

(** C10, as amended. Line matching and the reported text both use the
    trimmed line, under the cap of three: the matches recorded for a file
    are the first three trimmed lines whose normalized form contains the
    normalized term, each reported with the trimmed text and the 1-based
    number of the line it comes from; so a line is reported exactly when
    its trimmed, normalized form contains the normalized term and fewer
    than three earlier lines do. A term that occurs only together with the
    white space at the end of a line is found in the content but in no
    line: the file is recorded without matches. *)
Theorem search_matches_trimmed_lines :
  (forall h indicators searchTerm caseInsensitive,
     exists results,
       searchIndicators h indicators searchTerm caseInsensitive = Ok results /\
       Forall (fun r => exists content,
         readFileSync h (file r) = Ok content /\
         matches r =
           take 3 (List.filter
                     (fun m => includes (normalize h caseInsensitive (line m))
                                        (normalize h caseInsensitive searchTerm))
                     (numberedTrimmedLines content)) /\
         Forall (fun m => exists raw,
           split LF content !! (number m - 1) = Some raw /\
           1 <= number m /\ line m = trim raw /\
           includes (normalize h caseInsensitive (trim raw))
                    (normalize h caseInsensitive searchTerm) = true)
           (matches r) /\
         (forall i raw, split LF content !! i = Some raw ->
            ({| line := trim raw; number := i + 1 |} ∈ matches r <->
             includes (normalize h caseInsensitive (trim raw))
                      (normalize h caseInsensitive searchTerm) = true /\
             earlierMatches h (normalize h caseInsensitive searchTerm)
               caseInsensitive content i < 3))) results) /\
  (includes trailingSpaceFile (str "close ") = true /\
   includes (trim trailingSpaceFile) (str "close ") = false /\
   searchIndicators (TestHost.host [(str "ema", trailingSpaceFile)])
     [str "ema"] (str "close ") false =
   Ok [{| file := str "ema"; matches := [] |}]).
Proof.
  split; [|by vm_compute].
  intros h indicators searchTerm caseInsensitive.
  destruct (searchIndicators_recorded h searchTerm caseInsensitive indicators)
    as (results & Hrun & Hall).
  exists results. split; [done|]. eapply Forall_impl; [exact Hall|].
  intros r (content & Hread & _ & Hm). exists content.
  split; [done|]. split; [by rewrite Hm, lineMatches_eq|]. split.
  - apply Forall_forall. intros m Hin. rewrite Hm in Hin.
    by apply lineMatches_sound in Hin.
  - intros i raw Hraw. rewrite Hm. by apply lineMatches_iff.
Qed.

Lemma search_matches_trimmed_lines_witness :
  exists results,
    searchIndicators (TestHost.host [(str "four", fourMatches)])
      [str "four"] (str "plot") false = Ok results /\
    Forall (fun r =>
      {| line := str "plot(close)"; number := 1 |} ∈ matches r /\
      {| line := str "plot(close)"; number := 4 |} ∉ matches r) results.
Proof.
  destruct search_matches_trimmed_lines as [Hgeneral _].
  destruct (Hgeneral (TestHost.host [(str "four", fourMatches)])
              [str "four"] (str "plot") false) as (results & Hrun & Hall).
  exists results. split; [exact Hrun|].
  injection Hrun as <-. apply Forall_cons in Hall as [Hr _].
  destruct Hr as (content & Hread & _ & _ & Hiff).
  injection Hread as <-. constructor; [|constructor]. split.
  - apply (Hiff 0 (str "plot(close)") eq_refl). split; [reflexivity|].
    vm_compute. lia.
  - intros Hin. apply (Hiff 3 (str "plot(close)") eq_refl) in Hin as [_ Hlt].
    vm_compute in Hlt. lia.
Defined.

(** C10, as the specification words it: reported if and only if the
    trimmed form contains the term. Of four lines that all hold the term
    the fourth is not reported. *)
Lemma search_drops_fourth_match :
  ~ everyMatchingLineReported (TestHost.host [(str "four", fourMatches)])
      [str "four"] (str "plot") false.
Proof.
  intros H. specialize (H _ eq_refl).
  apply Forall_cons in H as [Hr _].
  specialize (Hr fourMatches eq_refl 3 (str "plot(close)") eq_refl).
  destruct Hr as [_ Hr]. specialize (Hr eq_refl).
  repeat (apply elem_of_cons in Hr as [Hr|Hr]; [discriminate|]).
  by apply elem_of_nil in Hr.
Qed.

(** C6 at a failing input. One readable file whose only line is indented,
    searched case-insensitively for a term that starts with the
    indentation: the content holds the term, no trimmed line does, and the
    file is recorded with no match at all. *)
Theorem search_records_file_without_matches :
  searchIndicators (TestHost.host [(str "rsi_div", indentedFile)])
    [str "rsi_div"] (str "  rsi") true =
  Ok [{| file := str "rsi_div"; matches := [] |}].
Proof. by vm_compute. Qed.

(** ** Tool dispatch *)

Lemma strEq_eq s t : strEq s t = true <-> s = t.
Proof.
  revert t. induction s as [|c s IH]; intros [|d t]; simpl; try done.
  rewrite andb_true_iff, N.eqb_eq, IH. split; [by intros [-> ->]|].
  by intros [= -> ->].
Qed.

Lemma strEq_neq s t : s <> t -> strEq s t = false.
Proof. intros H. apply not_true_is_false. by rewrite strEq_eq. Qed.

Lemma includes_trans s t u :
  includes s t = true -> includes t u = true -> includes s u = true.
Proof.
  rewrite !includes_spec. intros (a & b & ->) (a' & b' & ->).
  exists (a ++ a'), (b' ++ b). by rewrite <- !app_assoc.
Qed.

Lemma exnToString_includes_message e :
  includes (exnToString e) (emessage e) = true.
Proof.
  unfold exnToString. destruct (ename e) as [|c n], (emessage e) as [|d m];
    try done.
  - apply includes_spec. exists [], []. by rewrite app_nil_r.
  - apply includes_spec. exists ((c :: n) ++ str ": "), [].
    by rewrite app_nil_r, <- app_assoc.
Qed.

Lemma handleTool_ok_not_error h name args response :
  handleTool h name args = Ok response -> isError response = false.
Proof.
  unfold handleTool.
  repeat match goal with
         | |- context [if ?b then _ else _] => destruct b
         | |- context [bind ?m _] => destruct m as [[]|]; simpl
         | |- context [bind ?m _] => destruct m; simpl
         end; by intros [= <-].
Qed.

Lemma analyze_missing_file h props filename error :
  props (str "indicatorName") = PString filename ->
  readFileSync h filename = Throw error ->
  handleTool h (str "analyze_indicator") (ArgsObject props) =
  Throw (newError (str "Failed to read indicator file " ++ [DQUOTE] ++
                   filename ++ [DQUOTE] ++ str ": " ++ exnToString error)).
Proof.
  intros Hprop Hread. unfold handleTool. simpl. rewrite Hprop. simpl.
  by rewrite (readIndicatorFile_throw _ _ _ Hread).
Qed.

(** C8. Whatever a tool handler throws is caught by the request handler
    and comes back as a text response flagged as an error, with the text
    [Error: ] followed by the message; a response is flagged exactly when
    the handler threw. An unknown tool name is reported that way. When
    [analyze_indicator] names a file that cannot be read, the flagged text
    contains the file name and the rendering of the underlying read error,
    hence its message. *)
Theorem callTool_catches_errors (h : Host) (name : jsstring) (args : jsargs) :
  (forall error, handleTool h name args = Throw error ->
     callTool h name args =
     {| text := str "Error: " ++ emessage error; isError := true |}) /\
  (isError (callTool h name args) = true <->
     exists error, handleTool h name args = Throw error) /\
  (name <> str "list_indicators" -> name <> str "analyze_indicator" ->
   name <> str "search_indicators" -> name <> str "extract_functions" ->
     callTool h name args =
     {| text := str "Error: Unknown tool: " ++ name; isError := true |}) /\
  (forall props filename error,
     name = str "analyze_indicator" -> args = ArgsObject props ->
     props (str "indicatorName") = PString filename ->
     readFileSync h filename = Throw error ->
     callTool h name args =
       {| text := str "Error: Failed to read indicator file " ++ [DQUOTE] ++
                  filename ++ [DQUOTE] ++ str ": " ++ exnToString error;
          isError := true |} /\
     includes (text (callTool h name args)) filename = true /\
     includes (text (callTool h name args)) (exnToString error) = true /\
     includes (text (callTool h name args)) (emessage error) = true).
Proof.
  split; [|split; [|split]].
  - intros error H. unfold callTool. by rewrite H.
  - unfold callTool. destruct (handleTool h name args) as [r|e] eqn:H.
    + rewrite (handleTool_ok_not_error _ _ _ _ H). split; [done|].
      by intros [? ?].
    + split; [by eauto|done].
  - intros H1 H2 H3 H4. unfold callTool, handleTool.
    by rewrite !strEq_neq.
  - intros props filename error -> -> Hprop Hread. unfold callTool.
    rewrite (analyze_missing_file _ _ _ _ Hprop Hread).
    unfold errorResponse, newError. simpl emessage. simpl text.
    assert (includes
              (str "Error: " ++ str "Failed to read indicator file " ++
               [DQUOTE] ++ filename ++ [DQUOTE] ++ str ": " ++
               exnToString error) (exnToString error) = true) as Hreason.
    { apply includes_spec.
      exists (str "Error: " ++ str "Failed to read indicator file " ++
              [DQUOTE] ++ filename ++ [DQUOTE] ++ str ": "), [].
      by rewrite app_nil_r, <- !app_assoc. }
    split; [done|]. split; [|split; [done|]].
    + apply includes_spec.
      exists (str "Error: " ++ str "Failed to read indicator file " ++
              [DQUOTE]), ([DQUOTE] ++ str ": " ++ exnToString error).
      by rewrite <- !app_assoc.
    + eapply includes_trans; [exact Hreason|].
      apply exnToString_includes_message.
Qed.

Lemma callTool_catches_errors_witness :
  isError (callTool (TestHost.host []) (str "analyze_indicator")
             (ArgsObject (TestHost.withArg (str "indicatorName")
                            (PString (str "missing.pine")) TestHost.noArgs)))
  = true /\
  includes
    (text (callTool (TestHost.host []) (str "analyze_indicator")
             (ArgsObject (TestHost.withArg (str "indicatorName")
                            (PString (str "missing.pine")) TestHost.noArgs))))
    (str "missing.pine") = true /\
  includes
    (text (callTool (TestHost.host []) (str "analyze_indicator")
             (ArgsObject (TestHost.withArg (str "indicatorName")
                            (PString (str "missing.pine")) TestHost.noArgs))))
    (str "ENOENT: no such file or directory") = true /\
  callTool (TestHost.host []) (str "no_such_tool") ArgsNotObject =
    {| text := str "Error: Unknown tool: no_such_tool"; isError := true |}.
Proof.
  destruct (callTool_catches_errors (TestHost.host [])
              (str "analyze_indicator")
              (ArgsObject (TestHost.withArg (str "indicatorName")
                             (PString (str "missing.pine")) TestHost.noArgs)))
    as (_ & _ & _ & Hmissing).
  destruct (Hmissing _ (str "missing.pine")
              (TestHost.enoent (str "missing.pine"))
              eq_refl eq_refl eq_refl eq_refl) as (Hresp & Hname & _ & _).
  destruct (callTool_catches_errors (TestHost.host []) (str "no_such_tool")
              ArgsNotObject) as (_ & _ & Hunknown & _).
  split; [by rewrite Hresp|]. split; [exact Hname|]. split; [reflexivity|].
  apply Hunknown; discriminate.
Defined.

(** ** Scenarios *)

Example analyze_scenarioA :
  analyzeIndicatorCode scenarioA =
  Ok {| functions := [str "foo"]; variables := [str "y"]; plots := [];
        inputs := []; alerts := []; complexity := Low; lineCount := 4 |}.
Proof. reflexivity. Qed.

Example analyze_scenarioB :
  exists r, analyzeIndicatorCode scenarioB = Ok r /\
            lineCount r = 350 /\ functionCount scenarioB = 25 /\
            complexity r = High.
Proof. run_analysis. by vm_compute. Qed.

Example search_scenarioC :
  searchIndicators (TestHost.host [(str "rsi", scenarioC)]) [str "rsi"]
    (str "RSI") true =
  Ok [{| file := str "rsi";
         matches := [{| line := str "rsi_value = close"; number := 2 |}] |}].
Proof. by vm_compute. Qed.

(** * Further properties *)

(** ** File enumeration *)

Lemma filter_sublist {A} (p : A -> bool) (l : list A) :
  sublist (List.filter p l) l.
Proof.
  induction l as [|x l IH]; simpl; [done|].
  destruct (p x); by constructor.
Qed.

Lemma getIndicatorFiles_ok h pattern files :
  readdirSync h = Ok files ->
  getIndicatorFiles h pattern = Ok (List.filter (keepFile h pattern) files).
Proof. unfold getIndicatorFiles. by intros ->. Qed.

(** X1. On a readable directory [getIndicatorFiles] returns the directory
    entries it keeps in directory order, and it keeps a name exactly when
    the name is no dot file, contains none of [package], [tsconfig],
    [Dockerfile], ends in none of [.js], [.ts], [.json], [.md], [.rar], and,
    for a non-empty pattern, contains the pattern once both are
    lower-cased. *)
Theorem getIndicatorFiles_keeps (h : Host) (pattern : option jsstring)
  (files : list jsstring) :
  readdirSync h = Ok files ->
  exists kept,
    getIndicatorFiles h pattern = Ok kept /\
    sublist kept files /\
    forall f, f ∈ kept <->
      f ∈ files /\
      startsWith f (str ".") = false /\
      includes f (str "package") = false /\
      includes f (str "tsconfig") = false /\
      includes f (str "Dockerfile") = false /\
      endsWith f (str ".js") = false /\ endsWith f (str ".ts") = false /\
      endsWith f (str ".json") = false /\ endsWith f (str ".md") = false /\
      endsWith f (str ".rar") = false /\
      match pattern with
      | Some (c :: p) =>
          includes (toLowerCase h f) (toLowerCase h (c :: p)) = true
      | _ => True
      end.
Proof.
  intros Hdir. eexists. split; [by apply getIndicatorFiles_ok|].
  split; [apply filter_sublist|].
  intros f. rewrite list_elem_of_In, filter_In, <- list_elem_of_In.
  unfold keepFile.
  destruct (startsWith f _), (includes f (str "package")),
    (includes f (str "tsconfig")), (includes f (str "Dockerfile")),
    (endsWith f (str ".js")), (endsWith f (str ".ts")),
    (endsWith f (str ".json")), (endsWith f (str ".md")),
    (endsWith f (str ".rar")); simpl; try (by intuition discriminate).
  destruct pattern as [[|c p]|]; intuition.
Qed.

Lemma getIndicatorFiles_keeps_witness :
  exists kept,
    getIndicatorFiles
      (TestHost.host [(str "rsi.pine", []); (str "package.json", [])])
      None = Ok kept /\
    sublist kept [str "rsi.pine"; str "package.json"].
Proof.
  destruct (getIndicatorFiles_keeps
              (TestHost.host [(str "rsi.pine", []); (str "package.json", [])])
              None [str "rsi.pine"; str "package.json"] eq_refl)
    as (kept & Hrun & Hsub & _).
  by exists kept.
Defined.

(** X2. [list_indicators] with the empty string as pattern answers as it
    does without a pattern: the empty pattern filters nothing. *)
Theorem list_indicators_empty_pattern (h : Host)
  (props props' : jsstring -> jsprim) :
  props (str "pattern") = PString [] ->
  props' (str "pattern") = PUndefined ->
  callTool h (str "list_indicators") (ArgsObject props) =
  callTool h (str "list_indicators") (ArgsObject props').
Proof.
  intros H H'. unfold callTool, handleTool, parseListIndicators. simpl.
  by rewrite H, H'.
Qed.

Lemma list_indicators_empty_pattern_witness :
  callTool (TestHost.host [(str "rsi.pine", [])]) (str "list_indicators")
    (ArgsObject (TestHost.withArg (str "pattern") (PString [])
                   TestHost.noArgs)) =
  callTool (TestHost.host [(str "rsi.pine", [])]) (str "list_indicators")
    (ArgsObject TestHost.noArgs).
Proof.
  apply (list_indicators_empty_pattern
           (TestHost.host [(str "rsi.pine", [])])); reflexivity.
Defined.

(** X3. When the directory cannot be read, [list_indicators] and
    [search_indicators] called with valid arguments both answer with an
    error-flagged text that reports the failure to read the directory and
    the rendered cause. *)
Theorem directory_failure_reported (h : Host) (args : jsargs)
  (error : jsexn) :
  readdirSync h = Throw error ->
  (forall pattern, parseListIndicators h args = Ok pattern ->
     callTool h (str "list_indicators") args =
     {| text := str "Error: Failed to read directory: " ++ exnToString error;
        isError := true |}) /\
  (forall parsed, parseSearchIndicator h args = Ok parsed ->
     callTool h (str "search_indicators") args =
     {| text := str "Error: Failed to read directory: " ++ exnToString error;
        isError := true |}).
Proof.
  intros Hdir. split.
  - intros pattern Hparse.
    unfold callTool, handleTool, getIndicatorFiles. simpl.
    by rewrite Hparse, Hdir.
  - intros [searchTerm caseInsensitive] Hparse.
    unfold callTool, handleTool, getIndicatorFiles. simpl.
    by rewrite Hparse, Hdir.
Qed.

Lemma directory_failure_reported_witness :
  callTool brokenDirectory (str "list_indicators")
    (ArgsObject TestHost.noArgs) =
  {| text := str "Error: Failed to read directory: Error: EACCES: permission denied";
     isError := true |}.
Proof.
  destruct (directory_failure_reported brokenDirectory
              (ArgsObject TestHost.noArgs)
              (newError (str "EACCES: permission denied")) eq_refl)
    as [Hlist _].
  exact (Hlist None eq_refl).
Defined.

(** ** Line classifier, continued *)

Lemma isIdentStart_not_space c : isIdentStart c = true -> isWhiteSpace c = false.
Proof.
  intros Hc. apply not_true_is_false. intros Hw%whiteSpace_not_ident.
  unfold isIdentChar in Hw. by rewrite Hc in Hw.
Qed.

Lemma stripVar_Some s r :
  stripVar s = Some r <->
  exists w ws, s = str "var" ++ (w :: ws) ++ r /\
               Forall (fun d => isWhiteSpace d = true) (w :: ws) /\
               match r with
               | d :: _ => isWhiteSpace d = false
               | [] => True
               end.
Proof.
  unfold stripVar. split.
  - destruct (startsWith s (str "var")) eqn:Hs; [|done].
    apply startsWith_inv in Hs as (t & ->).
    change (drop 3 (str "var" ++ t)) with t.
    destruct t as [|w t]; [done|].
    destruct (isWhiteSpace w) eqn:Hw; [|done]. intros [= <-].
    destruct (dropWhile_split isWhiteSpace t) as (ws & Ht & Hws).
    exists w, ws. split; [simpl; by rewrite <- Ht|]. split; [by constructor|].
    destruct (dropWhile isWhiteSpace t) as [|d t'] eqn:E; [done|].
    clear Ht. revert E. clear. induction t as [|c t IH]; simpl; [done|].
    destruct (isWhiteSpace c) eqn:Hc; [done|]. by intros [= <- _].
  - intros (w & ws & -> & Hws & Hr).
    rewrite startsWith_app. change (drop 3 (str "var" ++ ?t)) with t.
    simpl. apply Forall_cons in Hws as [-> Hws].
    rewrite (dropWhile_app_all _ _ _ Hws).
    destruct r as [|d r]; [done|]. simpl. by rewrite Hr.
Qed.

Lemma HeadThenStop_head stop s :
  HeadThenStop stop s ->
  match s with
  | d :: _ => isWhiteSpace d = false
  | [] => True
  end.
Proof.
  intros (c & ident & ws & rest & -> & Hc & _). by apply isIdentStart_not_space.
Qed.

(** X4. A trimmed line is classified Variable exactly when it starts with
    an identifier, optional white space and [=], either at once or after
    the keyword [var] and at least one white-space character. *)
Theorem variable_line_iff_head (line : jsstring) :
  isVariableLine (trim line) = true <-> VariableHead (trim line).
Proof.
  unfold isVariableLine, VariableHead. rewrite orb_true_iff.
  rewrite (matchHead_spec EQUALS (trim line)) by done.
  split.
  - intros [H|H]; [|by left]. right.
    destruct (stripVar (trim line)) as [r|] eqn:Hr; [|done].
    apply stripVar_Some in Hr as (w & ws & Heq & Hws & _).
    apply matchHead_spec in H; [|done..]. by exists w, ws, r.
  - intros [H|(w & ws & rest & Heq & Hws & Hrest)]; [by right|]. left.
    assert (stripVar (trim line) = Some rest) as ->.
    { apply stripVar_Some. exists w, ws. split; [done|]. split; [done|].
      by apply (HeadThenStop_head EQUALS). }
    by apply matchHead_spec.
Qed.

Lemma hd_split_app sep a b :
  sep ∉ a -> hd [] (split sep (a ++ sep :: b)) = a.
Proof.
  induction a as [|c a IH]; intros Ha; simpl.
  - by rewrite N.eqb_refl.
  - apply not_elem_of_cons in Ha as [Hc Ha].
    destruct (N.eqb_spec c sep) as [->|_]; [done|].
    specialize (IH Ha).
    destruct (split_cons sep (a ++ sep :: b)) as (x & xs & Hs).
    rewrite Hs in IH |- *. simpl in *. by rewrite IH.
Qed.

Lemma functionName_shape t :
  isFunctionLine t = true ->
  IdentThenSpace (functionName t) /\ (LPAREN ∉ functionName t) /\
  exists rest, t = functionName t ++ LPAREN :: rest.
Proof.
  intros H. apply matchHead_spec in H; [|done..].
  destruct H as (c & ident & ws & rest & -> & Hc & Hident & Hws).
  assert (LPAREN ∉ c :: ident ++ ws) as Hno.
  { rewrite not_elem_of_cons, not_elem_of_app. split; [|split].
    - intros <-. done.
    - intros Hin. by apply (proj1 (Forall_forall _ _) Hident) in Hin.
    - intros Hin. by apply (proj1 (Forall_forall _ _) Hws) in Hin. }
  assert (functionName (c :: ident ++ ws ++ LPAREN :: rest) = c :: ident ++ ws)
    as ->.
  { unfold functionName.
    replace (c :: ident ++ ws ++ LPAREN :: rest)
      with ((c :: ident ++ ws) ++ LPAREN :: rest)
      by (simpl; by rewrite <- app_assoc).
    by apply hd_split_app. }
  split; [by exists c, ident, ws|]. split; [done|].
  exists rest. simpl. by rewrite <- app_assoc.
Qed.

(** X5. Every function name in the report is an identifier followed by the
    white space, if any, that stood before the parenthesis: it is never
    empty, starts with a letter or underscore and contains no [(]. *)
Theorem function_names_are_identifiers (content : jsstring) :
  exists r, analyzeIndicatorCode content = Ok r /\
    Forall (fun n => IdentThenSpace n /\ (LPAREN ∉ n) /\ n <> [])
           (functions r).
Proof.
  run_analysis. apply Forall_take. unfold allFunctions.
  apply Forall_forall. intros n Hn.
  apply list_elem_of_In, in_map_iff in Hn as (t & <- & Ht).
  apply filter_In in Ht as [_ Ht].
  destruct (functionName_shape t Ht) as (Hshape & Hno & _).
  split; [done|]. split; [done|].
  destruct Hshape as (c & ident & ws & -> & _). done.
Qed.

(** X6. A line made only of white space is put in no category: the scan
    leaves all five lists as they were. *)
Theorem blank_line_matches_nothing (b : Buckets) (line : jsstring) :
  Forall (fun c => isWhiteSpace c = true) line ->
  classifyLine b line = Ok b.
Proof.
  intros Hws. rewrite classifyLine_eq.
  assert (trim line = []) as ->.
  { unfold trim, trimStart, trimEnd.
    rewrite <- (app_nil_r line), (dropWhile_app_all _ _ _ Hws). done. }
  simpl. rewrite !app_nil_r. by destruct b.
Qed.

Lemma blank_line_matches_nothing_witness :
  classifyLine noBuckets (str "   ") = Ok noBuckets.
Proof.
  apply blank_line_matches_nothing. repeat constructor.
Defined.

(** ** File analyzer, continued *)

Lemma split_app sep a b :
  split sep (a ++ sep :: b) = split sep a ++ split sep b.
Proof.
  induction a as [|c a IH]; simpl.
  - by rewrite N.eqb_refl.
  - rewrite IH. destruct (c =? sep)%N; [done|].
    by destruct (split_cons sep a) as (x & xs & ->).
Qed.

Lemma trimmedLines_app a b :
  trimmedLines (a ++ LF :: b) = trimmedLines a ++ trimmedLines b.
Proof. unfold trimmedLines. by rewrite split_app, map_app. Qed.

Lemma tierOf_monotone a b :
  length (split LF a) <= length (split LF b) ->
  functionCount a <= functionCount b -> plotCount a <= plotCount b ->
  tierRank (tierOf a) <= tierRank (tierOf b).
Proof.
  intros Hl Hf Hp. unfold tierOf.
  repeat match goal with
         | |- context [?x <? ?y] => destruct (Nat.ltb_spec x y)
         end; simpl; lia.
Qed.

(** X7. Analyzing two texts joined by a newline composes: the line counts
    add up, each list is the cap applied to the matches of the first text
    followed by those of the second, and the tier of the joined text is at
    least the tier of either part. *)
Theorem analysis_of_joined_texts (a b : jsstring) :
  exists ra rb rab,
    analyzeIndicatorCode a = Ok ra /\ analyzeIndicatorCode b = Ok rb /\
    analyzeIndicatorCode (a ++ LF :: b) = Ok rab /\
    lineCount rab = lineCount ra + lineCount rb /\
    functions rab = take 10 (allFunctions a ++ allFunctions b) /\
    variables rab = take 15 (allVariables a ++ allVariables b) /\
    plots rab = take 10 (allPlots a ++ allPlots b) /\
    inputs rab = take 10 (allInputs a ++ allInputs b) /\
    alerts rab = take 5 (allAlerts a ++ allAlerts b) /\
    tierRank (complexity ra) <= tierRank (complexity rab) /\
    tierRank (complexity rb) <= tierRank (complexity rab).
Proof.
  do 3 eexists. do 3 (split; [apply analyzeIndicatorCode_eq|]). simpl.
  unfold allFunctions, allVariables, allPlots, allInputs, allAlerts.
  rewrite trimmedLines_app, !List.filter_app, !List.map_app, split_app, length_app.
  repeat split; try done.
  - apply tierOf_monotone; unfold functionCount, plotCount;
      rewrite ?split_app, ?trimmedLines_app, ?List.filter_app, ?length_app; lia.
  - apply tierOf_monotone; unfold functionCount, plotCount;
      rewrite ?split_app, ?trimmedLines_app, ?List.filter_app, ?length_app; lia.
Qed.

(** X8. Every entry of the plot, input and alert lists is the trimmed form
    of a line of the file and contains one of the keywords of its
    category. *)
Theorem listed_lines_come_from_file (content : jsstring) :
  exists r, analyzeIndicatorCode content = Ok r /\
    Forall (fun e => e ∈ trimmedLines content /\
                     (includes e (str "plot(") = true \/
                      includes e (str "plotshape(") = true \/
                      includes e (str "plotchar(") = true)) (plots r) /\
    Forall (fun e => e ∈ trimmedLines content /\
                     (includes e (str "input(") = true \/
                      includes e (str "input.") = true)) (inputs r) /\
    Forall (fun e => e ∈ trimmedLines content /\
                     (includes e (str "alert(") = true \/
                      includes e (str "alertcondition(") = true)) (alerts r).
Proof.
  run_analysis. unfold allPlots, allInputs, allAlerts.
  repeat split; apply Forall_take, Forall_forall; intros e He;
    apply list_elem_of_In, filter_In in He as [Hin He];
    (split; [by apply list_elem_of_In|]);
    unfold isPlotLine, isInputLine, isAlertLine in He;
    rewrite !orb_true_iff in He; tauto.
Qed.

(** ** Function body extractor, continued *)

Lemma lookahead_cons lines i raw :
  lines !! i = Some raw -> exists rest, lookahead lines i = raw :: rest.
Proof.
  intros Hraw. pose proof (lookup_lt_Some _ _ _ Hraw) as Hi.
  unfold lookahead, slice. rewrite (drop_S _ _ _ Hraw).
  destruct (Nat.min (i + 50) (length lines) - i) as [|n] eqn:E; [lia|].
  simpl. by eauto.
Qed.

Lemma slice_cons (lines : list jsstring) i e raw :
  lines !! i = Some raw -> i <= e ->
  exists rest, slice lines i (e + 1) = raw :: rest.
Proof.
  intros Hraw He. unfold slice. rewrite (drop_S _ _ _ Hraw).
  replace (e + 1 - i) with (S (e - i)) by lia. simpl. by eauto.
Qed.

Lemma length_join_head sep x a : length x <= length (join sep (x :: a)).
Proof. destruct a; [done|]. rewrite join_cons2, length_app. lia. Qed.

Lemma extractAt_eq lines functions i raw :
  lines !! i = Some raw ->
  extractAt lines functions i =
  Ok (if isFunctionLine (trim raw) then functions ++ [spanAt lines i raw]
      else functions).
Proof.
  intros Hraw. unfold extractAt, nth_. rewrite Hraw. simpl.
  destruct (isFunctionLine (trim raw)) eqn:Hfn; [|done].
  fold (lookahead lines i).
  destruct (functionEnd_bounds lines i (lookup_lt_Some _ _ _ Hraw))
    as (He & _ & _).
  destruct (slice_cons lines i _ raw Hraw He) as (rest & Hslice).
  assert ((0 <? length (join [LF] (slice lines i
            (default i (findFunctionEnd (lookahead lines i) i scanStart)
             + 1)))) = true) as ->.
  { apply Nat.ltb_lt. rewrite Hslice.
    pose proof (length_join_head [LF] raw rest).
    destruct raw; [done|]. simpl in *. lia. }
  by rewrite at0_split.
Qed.

Lemma forOf_extractAt_eq lines n a functions :
  a + n <= length lines ->
  exists spans,
    forOf (extractAt lines) (seq a n) functions = Ok (functions ++ spans) /\
    List.map startLine spans =
      List.map S (List.filter (functionAt lines) (seq a n)) /\
    List.map name spans =
      List.map (fun i => match lines !! i with
                         | Some raw => functionName (trim raw)
                         | None => []
                         end)
               (List.filter (functionAt lines) (seq a n)).
Proof.
  revert a functions. induction n as [|n IH]; intros a functions Ha; simpl.
  - exists []. by rewrite app_nil_r.
  - destruct (lookup_lt_is_Some_2 lines a ltac:(lia)) as [raw Hraw].
    rewrite (extractAt_eq _ _ _ _ Hraw). simpl.
    assert (functionAt lines a = isFunctionLine (trim raw)) as ->
      by (unfold functionAt; by rewrite Hraw).
    destruct (IH (S a) (if isFunctionLine (trim raw)
                        then functions ++ [spanAt lines a raw]
                        else functions) ltac:(lia))
      as (spans & -> & Hstart & Hname).
    destruct (isFunctionLine (trim raw)).
    + exists (spanAt lines a raw :: spans). rewrite <- app_assoc.
      split; [done|]. simpl. rewrite Hraw, Hstart, Hname.
      by rewrite Nat.add_1_r.
    + by exists spans.
Qed.

Lemma function_lines_by_index pre l :
  List.map (fun i => match (pre ++ l) !! i with
                     | Some raw => functionName (trim raw)
                     | None => []
                     end)
           (List.filter (functionAt (pre ++ l)) (seq (length pre) (length l)))
  = List.map functionName (List.filter isFunctionLine (List.map trim l)).
Proof.
  revert pre. induction l as [|x l IH]; intros pre; simpl; [done|].
  unfold functionAt at 1. rewrite list_lookup_middle by done.
  specialize (IH (pre ++ [x])).
  rewrite <- app_assoc, length_app, Nat.add_1_r in IH. simpl in IH.
  destruct (isFunctionLine (trim x)); simpl.
  - by rewrite list_lookup_middle, IH.
  - done.
Qed.

(** X9. [extract_functions] and [analyze_indicator] see the same
    functions: the extractor returns one span for every function-pattern
    line, in file order, starting on that line and named as the analyzer
    names it, so the analyzer's function list is the first ten names of the
    extractor's spans. *)
Theorem extracted_spans_match_function_lines (content : jsstring) :
  exists spans r,
    extractFunctions content = Ok spans /\
    analyzeIndicatorCode content = Ok r /\
    List.map startLine spans = functionLineNumbers content /\
    List.map name spans = allFunctions content /\
    length spans = functionCount content /\
    functions r = take 10 (List.map name spans).
Proof.
  unfold extractFunctions.
  destruct (forOf_extractAt_eq (split LF content)
              (length (split LF content)) 0 [] ltac:(lia))
    as (spans & -> & Hstart & Hname).
  pose proof (function_lines_by_index [] (split LF content)) as Hidx.
  simpl in Hidx. rewrite Hidx in Hname.
  exists spans. eexists. split; [done|].
  split; [apply analyzeIndicatorCode_eq|]. simpl.
  split; [done|]. split; [done|]. split; [|by rewrite Hname].
  unfold functionCount, trimmedLines.
  by rewrite <- (length_map name), Hname, length_map.
Qed.

Lemma split_without sep s : sep ∉ s -> split sep s = [s].
Proof.
  induction s as [|c s IH]; intros Hs; simpl; [done|].
  apply not_elem_of_cons in Hs as [Hc Hs].
  destruct (N.eqb_spec c sep) as [->|_]; [done|]. by rewrite IH.
Qed.

Lemma split_join sep (a : list jsstring) :
  a <> [] -> Forall (fun seg => sep ∉ seg) a ->
  split sep (join [sep] a) = a.
Proof.
  intros Hne Hall. induction Hall as [|x a Hx Hall IH]; [done|].
  destruct a as [|y a].
  - simpl. by apply split_without.
  - rewrite join_cons2. change ([sep] ++ ?t) with (sep :: t).
    rewrite split_app, split_without by done.
    rewrite IH; done.
Qed.

(** X10. The code of a span is exactly the lines from its start line to
    its end line: split at the newlines it gives those lines back, so it
    has [endLine - startLine + 1] lines. *)
Theorem span_code_is_its_lines (content : jsstring) :
  exists spans, extractFunctions content = Ok spans /\
    Forall (fun f =>
      split LF (code f) =
        slice (split LF content) (startLine f - 1) (endLine f) /\
      length (split LF (code f)) = endLine f - startLine f + 1) spans.
Proof.
  unfold extractFunctions.
  destruct (forOf_extractAt (split LF content) (length (split LF content))
              0 []) as (spans & -> & Hspans); [lia|done|].
  exists spans. split; [done|]. eapply Forall_impl; [exact Hspans|].
  intros f (i & raw & Hraw & _ & _ & Hs & He & Hcode). simpl.
  destruct (functionEnd_bounds _ i (lookup_lt_Some _ _ _ Hraw))
    as (H1 & _ & H3).
  replace (startLine f - 1) with i by lia.
  assert (split LF (code f) = slice (split LF content) i (endLine f)) as Heq.
  { rewrite Hcode. apply split_join.
    - rewrite He. destruct (slice_cons _ i _ raw Hraw H1) as (rest & ->).
      done.
    - unfold slice. apply Forall_take, Forall_drop, split_no_sep. }
  split; [done|]. rewrite Heq. unfold slice.
  rewrite length_take, length_drop. lia.
Qed.

Lemma forOf_app {S A} (body : S -> A -> result S) (xs ys : list A) (s : S) :
  forOf body (xs ++ ys) s = bind (forOf body xs s) (forOf body ys).
Proof.
  revert s. induction xs as [|x xs IH]; intros s; simpl; [done|].
  destruct (body s x); simpl; [apply IH|done].
Qed.

Lemma extractFunctions_has_span content i raw :
  split LF content !! i = Some raw ->
  isFunctionLine (trim raw) = true ->
  exists spans,
    extractFunctions content = Ok spans /\
    spanAt (split LF content) i raw ∈ spans.
Proof.
  intros Hraw Hfn. unfold extractFunctions.
  pose proof (lookup_lt_Some _ _ _ Hraw) as Hi.
  replace (seq 0 (length (split LF content)))
    with (seq 0 i ++ i :: seq (S i) (length (split LF content) - S i)).
  2:{ replace (length (split LF content))
        with (i + S (length (split LF content) - S i)) at 2 by lia.
      by rewrite seq_app. }
  rewrite forOf_app.
  destruct (forOf_extractAt_eq (split LF content) i 0 [] ltac:(lia))
    as (s1 & -> & _). simpl.
  rewrite (extractAt_eq _ _ _ _ Hraw), Hfn. simpl.
  destruct (forOf_extractAt_eq (split LF content)
              (length (split LF content) - S i) (S i)
              (s1 ++ [spanAt (split LF content) i raw]) ltac:(lia))
    as (s2 & -> & _).
  eexists. split; [done|]. rewrite !elem_of_app, list_elem_of_singleton.
  by left; right.
Qed.

(** X11. A function whose start line holds both an opening and a closing
    brace gets a span of that one line: for every function-pattern line
    with both braces the extractor returns the span that starts and ends
    on it and whose code is the line itself. *)
Theorem one_line_body_span (content : jsstring) (i : nat) (raw : jsstring) :
  split LF content !! i = Some raw ->
  isFunctionLine (trim raw) = true ->
  includes raw [LBRACE] = true -> includes raw [RBRACE] = true ->
  exists spans,
    extractFunctions content = Ok spans /\
    {| name := functionName (trim raw); startLine := i + 1;
       endLine := i + 1; code := raw |} ∈ spans.
Proof.
  intros Hraw Hfn Hl Hr.
  destruct (extractFunctions_has_span content i raw Hraw Hfn)
    as (spans & Hrun & Hin).
  exists spans. split; [done|].
  assert (default i (findFunctionEnd (lookahead (split LF content) i) i
                       scanStart) = i) as Hend.
  { destruct (lookahead_cons _ _ _ Hraw) as (rest & ->). simpl.
    unfold scanBraces. by rewrite Hl, Hr. }
  unfold spanAt in Hin. rewrite Hend in Hin.
  assert (slice (split LF content) i (i + 1) = [raw]) as Hslice.
  { unfold slice. rewrite (drop_S _ _ _ Hraw).
    by replace (i + 1 - i) with 1 by lia. }
  by rewrite Hslice in Hin.
Qed.

Lemma one_line_body_span_witness :
  exists spans,
    extractFunctions (str "f(x) { return x }") = Ok spans /\
    {| name := str "f"; startLine := 1; endLine := 1;
       code := str "f(x) { return x }" |} ∈ spans.
Proof.
  exact (one_line_body_span (str "f(x) { return x }") 0
           (str "f(x) { return x }") eq_refl eq_refl eq_refl eq_refl).
Defined.

(** ** Corpus search, continued *)

Lemma searchFile_files h searchTerm caseInsensitive results indicator :
  exists results',
    searchFile h searchTerm caseInsensitive results indicator = Ok results' /\
    List.map file results' =
      List.map file results ++
      (if hit h searchTerm caseInsensitive indicator then [indicator] else []).
Proof.
  unfold searchFile, readIndicatorFile, hit.
  destruct (readFileSync h indicator) as [content|error]; simpl.
  - fold (normalize h caseInsensitive content).
    fold (normalize h caseInsensitive searchTerm).
    destruct (includes _ _); simpl; eexists; (split; [done|]).
    + by rewrite List.map_app.
    + by rewrite app_nil_r.
  - eexists. split; [done|]. by rewrite app_nil_r.
Qed.

Lemma forOf_searchFile_files h searchTerm caseInsensitive indicators results :
  exists results',
    forOf (searchFile h searchTerm caseInsensitive) indicators results
      = Ok results' /\
    List.map file results' =
      List.map file results ++
      List.filter (hit h searchTerm caseInsensitive) indicators.
Proof.
  revert results.
  induction indicators as [|indicator indicators IH]; intros results; simpl.
  - eexists. split; [done|]. by rewrite app_nil_r.
  - destruct (searchFile_files h searchTerm caseInsensitive results indicator)
      as (results1 & -> & Hfiles1). simpl.
    destruct (IH results1) as (results' & -> & Hfiles).
    eexists. split; [done|]. rewrite Hfiles, Hfiles1, <- app_assoc.
    by destruct (hit h searchTerm caseInsensitive indicator).
Qed.

(** X12. The search never fails: a file that cannot be read is skipped.
    The files it records are, in enumeration order, exactly the readable
    files whose normalized content contains the normalized term. *)
Theorem search_records_hits_in_order (h : Host) (indicators : list jsstring)
  (searchTerm : jsstring) (caseInsensitive : bool) :
  exists results,
    searchIndicators h indicators searchTerm caseInsensitive = Ok results /\
    List.map file results =
      List.filter (hit h searchTerm caseInsensitive) indicators.
Proof.
  unfold searchIndicators.
  destruct (forOf_searchFile_files h searchTerm caseInsensitive indicators [])
    as (results & -> & Hfiles).
  by exists results.
Qed.

Lemma includes_nil s : includes s [] = true.
Proof. by destruct s. Qed.

Lemma includes_cons c s t : includes s t = true -> includes (c :: s) t = true.
Proof. intros H. simpl. by rewrite H, orb_true_r. Qed.

Lemma startsWith_first_segment sep s t :
  startsWith s t = true -> sep ∉ t ->
  startsWith (hd [] (split sep s)) t = true.
Proof.
  revert s. induction t as [|d t IH]; intros s Hs Ht; [done|].
  destruct s as [|c s]; [done|]. simpl in Hs.
  apply andb_true_iff in Hs as [Hc Hs]. apply N.eqb_eq in Hc as ->.
  apply not_elem_of_cons in Ht as [Hd Ht]. simpl.
  destruct (N.eqb_spec d sep) as [->|_]; [done|].
  specialize (IH s Hs Ht).
  destruct (split_cons sep s) as (x & xs & Hx). rewrite Hx in IH |- *.
  simpl in *. by rewrite N.eqb_refl.
Qed.

Lemma includes_some_segment sep s t :
  includes s t = true -> sep ∉ t ->
  Exists (fun seg => includes seg t = true) (split sep s).
Proof.
  intros Hs Ht. induction s as [|c s IH].
  - simpl. constructor. done.
  - simpl in Hs. apply orb_true_iff in Hs as [Hs|Hs].
    + apply (startsWith_first_segment sep) in Hs; [|done].
      destruct (split_cons sep (c :: s)) as (x & xs & Hx).
      rewrite Hx in Hs |- *. constructor. by apply includes_startsWith.
    + specialize (IH Hs). simpl.
      destruct (c =? sep)%N; [by constructor|].
      destruct (split_cons sep s) as (x & xs & Hx). rewrite Hx in IH |- *.
      apply Exists_cons in IH as [IH|IH].
      * constructor. by apply includes_cons.
      * by apply Exists_cons_tl.
Qed.

Lemma includes_dropWhile p s t :
  includes s t = true -> Forall (fun c => p c = false) t ->
  includes (dropWhile p s) t = true.
Proof.
  intros Hs Ht. destruct t as [|d t]; [apply includes_nil|].
  apply Forall_cons in Ht as [Hd _].
  induction s as [|c s IH]; [done|]. simpl.
  destruct (p c) eqn:Hc; [|done].
  simpl in Hs. apply orb_true_iff in Hs as [Hs|Hs]; [|by apply IH].
  apply andb_true_iff in Hs as [Hcd _]. apply N.eqb_eq in Hcd as ->.
  congruence.
Qed.

Lemma includes_reverse s t :
  includes s t = true -> includes (reverse s) (reverse t) = true.
Proof.
  rewrite !includes_spec. intros (a & b & ->).
  exists (reverse b), (reverse a). by rewrite !reverse_app, <- app_assoc.
Qed.

Lemma includes_trim s t :
  includes s t = true -> Forall (fun c => isWhiteSpace c = false) t ->
  includes (trim s) t = true.
Proof.
  intros Hs Ht. unfold trim, trimEnd, trimStart.
  rewrite <- (reverse_involutive t). apply includes_reverse.
  apply includes_dropWhile; [|by apply Forall_reverse].
  apply includes_reverse. by apply includes_dropWhile.
Qed.

Lemma filter_nonempty {A} (p : A -> bool) (l : list A) x :
  x ∈ l -> p x = true -> List.filter p l <> [].
Proof.
  intros Hx Hp Hnil.
  assert (In x (List.filter p l)) as Hin
    by (apply filter_In; split; [by apply list_elem_of_In|done]).
  by rewrite Hnil in Hin.
Qed.

Lemma lineMatches_nonempty h term content :
  includes content term = true ->
  Forall (fun c => isWhiteSpace c = false) term ->
  lineMatches h term false content <> [].
Proof.
  intros Hc Ht. rewrite lineMatches_eq.
  assert (LF ∉ term) as Hlf.
  { intros Hin. by apply (proj1 (Forall_forall _ _) Ht) in Hin. }
  apply (includes_some_segment LF) in Hc; [|done].
  apply Exists_exists in Hc as (seg & Hseg & Hinc).
  apply list_elem_of_lookup in Hseg as (i & Hi).
  assert (List.filter
            (fun m => includes (normalize h false (line m)) term)
            (numberedTrimmedLines content) <> []) as Hne.
  { apply (filter_nonempty _ _ {| line := trim seg; number := i + 1 |}).
    - unfold numberedTrimmedLines.
      by apply (elem_of_lookup_imap_2
                  (fun index l => {| line := trim l; number := index + 1 |})).
    - simpl. by apply includes_trim. }
  destruct (List.filter _ _); done.
Qed.

(** X13. Searched case-sensitively for a term without white space, every
    recorded file carries at least one matching line. *)
Theorem search_match_present (h : Host) (indicators : list jsstring)
  (searchTerm : jsstring) :
  Forall (fun c => isWhiteSpace c = false) searchTerm ->
  exists results,
    searchIndicators h indicators searchTerm false = Ok results /\
    Forall (fun r => matches r <> []) results.
Proof.
  intros Hterm.
  destruct (searchIndicators_recorded h searchTerm false indicators)
    as (results & Hrun & Hall).
  exists results. split; [done|]. eapply Forall_impl; [exact Hall|].
  intros r (content & _ & Hinc & ->). by apply lineMatches_nonempty.
Qed.

Lemma search_match_present_witness :
  exists results,
    searchIndicators (TestHost.host [(str "rsi_div", indentedFile)])
      [str "rsi_div"] (str "ta.rsi") false = Ok results /\
    Forall (fun r => matches r <> []) results.
Proof.
  apply search_match_present. repeat constructor.
Defined.

Lemma filter_all {A} (p : A -> bool) (l : list A) :
  (forall x, p x = true) -> List.filter p l = l.
Proof.
  intros Hp. induction l as [|x l IH]; simpl; [done|]. by rewrite Hp, IH.
Qed.

Lemma hit_empty_term h caseInsensitive indicator :
  toLowerCase h [] = [] ->
  hit h [] caseInsensitive indicator = readable h indicator.
Proof.
  intros Hlow. unfold hit, readable.
  destruct (readFileSync h indicator); [|done].
  assert (normalize h caseInsensitive [] = []) as ->
    by (by destruct caseInsensitive).
  apply includes_nil.
Qed.

(** X14. The empty search term matches everything: on a host whose
    [toLowerCase] maps the empty string to itself, every readable file is
    recorded, in enumeration order, with its first three lines, trimmed and
    numbered from 1. *)
Theorem search_empty_term (h : Host) (indicators : list jsstring)
  (caseInsensitive : bool) :
  toLowerCase h [] = [] ->
  exists results,
    searchIndicators h indicators [] caseInsensitive = Ok results /\
    List.map file results = List.filter (readable h) indicators /\
    Forall (fun r => exists content,
              readFileSync h (file r) = Ok content /\
              matches r = take 3 (numberedTrimmedLines content)) results.
Proof.
  intros Hlow.
  destruct (searchIndicators_recorded h [] caseInsensitive indicators)
    as (results & Hrun & Hall).
  destruct (forOf_searchFile_files h [] caseInsensitive indicators [])
    as (results' & Hrun' & Hfiles).
  unfold searchIndicators in Hrun. rewrite Hrun in Hrun'.
  injection Hrun' as <-.
  exists results. split; [done|]. split.
  - rewrite Hfiles. apply filter_ext. intros f. by apply hit_empty_term.
  - eapply Forall_impl; [exact Hall|].
    intros r (content & Hread & _ & ->). exists content. split; [done|].
    rewrite lineMatches_eq.
    assert (normalize h caseInsensitive [] = []) as ->
      by (by destruct caseInsensitive).
    rewrite filter_all; [done|]. intros m. apply includes_nil.
Qed.

Lemma search_empty_term_witness :
  exists results,
    searchIndicators (TestHost.host [(str "rsi_div", indentedFile)])
      [str "rsi_div"; str "gone"] [] true = Ok results /\
    List.map file results = [str "rsi_div"].
Proof.
  destruct (search_empty_term (TestHost.host [(str "rsi_div", indentedFile)])
              [str "rsi_div"; str "gone"] true eq_refl)
    as (results & Hrun & Hfiles & _).
  by exists results.
Defined.

Lemma numbered_filter_sorted (p : LineMatch -> bool) off lines :
  StronglySorted lt
    (List.map number
       (List.filter p
          (imap (fun index l => {| line := trim l; number := off + index + 1 |})
                lines))) /\
  Forall (fun m => off < number m <= off + length lines)
    (List.filter p
       (imap (fun index l => {| line := trim l; number := off + index + 1 |})
             lines)).
Proof.
  revert off. induction lines as [|x lines IH]; intros off.
  - simpl. split; constructor.
  - rewrite imap_cons.
    destruct (IH (S off)) as [Hsorted Hbound].
    rewrite (imap_ext _ (fun index l =>
               {| line := trim l; number := S off + index + 1 |}))
      by (intros i y _; simpl; f_equal; lia).
    assert (Forall (fun m => off < number m <= off + length (x :: lines))
              (List.filter p
                 (imap (fun index l =>
                          {| line := trim l; number := S off + index + 1 |})
                       lines))) as Hbound'.
    { eapply Forall_impl; [exact Hbound|]. simpl. intros m Hm. lia. }
    simpl List.filter. destruct (p _).
    + split.
      * simpl. constructor; [done|].
        apply Forall_forall. intros n Hn.
        apply list_elem_of_In, in_map_iff in Hn as (m & <- & Hm).
        apply list_elem_of_In in Hm.
        apply (proj1 (Forall_forall _ _) Hbound) in Hm. lia.
      * constructor; [simpl; lia|done].
    + done.
Qed.

Lemma StronglySorted_take {A} (R : A -> A -> Prop) (l : list A) n :
  StronglySorted R l -> StronglySorted R (take n l).
Proof.
  intros H. revert n. induction H as [|x l Hl IH Hx]; intros [|n]; simpl;
    try constructor; [apply IH | by apply Forall_take].
Qed.

Lemma take_map {A B} (f : A -> B) (l : list A) n :
  take n (List.map f l) = List.map f (take n l).
Proof.
  revert n. induction l as [|x l IH]; intros [|n]; simpl; try done.
  by rewrite IH.
Qed.

(** X15. The matches recorded for a file are listed by ascending line
    number, and each number is a line number of the file, between 1 and the
    number of lines. *)
Theorem search_matches_ascending (h : Host) (indicators : list jsstring)
  (searchTerm : jsstring) (caseInsensitive : bool) :
  exists results,
    searchIndicators h indicators searchTerm caseInsensitive = Ok results /\
    Forall (fun r => exists content,
              readFileSync h (file r) = Ok content /\
              StronglySorted lt (List.map number (matches r)) /\
              Forall (fun m => 1 <= number m <= length (split LF content))
                     (matches r)) results.
Proof.
  destruct (searchIndicators_recorded h searchTerm caseInsensitive indicators)
    as (results & Hrun & Hall).
  exists results. split; [done|]. eapply Forall_impl; [exact Hall|].
  intros r (content & Hread & _ & ->). exists content. split; [done|].
  rewrite lineMatches_eq. unfold numberedTrimmedLines.
  destruct (numbered_filter_sorted
              (fun m => includes (normalize h caseInsensitive (line m))
                                 (normalize h caseInsensitive searchTerm))
              0 (split LF content)) as [Hsorted Hbound].
  split.
  - rewrite <- take_map. by apply StronglySorted_take.
  - apply Forall_take. eapply Forall_impl; [exact Hbound|].
    simpl. intros m Hm. lia.
Qed.

(** ** Tool dispatch, continued *)

Lemma parseIndicatorName_throw h args e :
  parseIndicatorName h args = Throw e -> ename e = str "ZodError".
Proof.
  unfold parseIndicatorName, zodThrow. destruct args as [props|].
  - destruct (zString _ _); [|done]. by intros [= <-].
  - by intros [= <-].
Qed.

Lemma parseListIndicators_throw h args e :
  parseListIndicators h args = Throw e -> ename e = str "ZodError".
Proof.
  unfold parseListIndicators, zodThrow. destruct args as [props|].
  - destruct (zOptionalString _ _); [|done]. by intros [= <-].
  - by intros [= <-].
Qed.

Lemma parseSearchIndicator_throw h args e :
  parseSearchIndicator h args = Throw e -> ename e = str "ZodError".
Proof.
  unfold parseSearchIndicator, zodThrow. destruct args as [props|].
  - destruct (zString _ _), (zBooleanDefault _ _ _); try done;
      by intros [= <-].
  - by intros [= <-].
Qed.

Lemma getIndicatorFiles_throw_message h pattern e :
  getIndicatorFiles h pattern = Throw e ->
  exists m, e = newError (str "Failed to read " ++ m).
Proof.
  unfold getIndicatorFiles. destruct (readdirSync h); [done|].
  simpl. intros [= <-]. by eexists.
Qed.

Lemma readIndicatorFile_throw_message h filename e :
  readIndicatorFile h filename = Throw e ->
  exists m, e = newError (str "Failed to read " ++ m).
Proof.
  unfold readIndicatorFile. destruct (readFileSync h filename); [done|].
  simpl. intros [= <-]. by eexists.
Qed.

Lemma extractFunctions_ok content :
  exists spans, extractFunctions content = Ok spans.
Proof.
  unfold extractFunctions.
  destruct (forOf_extractAt (split LF content) (length (split LF content))
              0 []) as (spans & -> & _); [lia|done|]. by eauto.
Qed.

(** What a handler of the four-tool server can throw: a validation error
    or a failure to read the directory or a file. *)
Lemma handleTool_throws h name args e :
  handleTool h name args = Throw e ->
  name ∈ List.map toolName listTools ->
  ename e = str "ZodError" \/
  exists m, e = newError (str "Failed to read " ++ m).
Proof.
  intros Hthrow Hname. simpl in Hname.
  repeat (apply elem_of_cons in Hname as [->|Hname]);
    [..|by apply elem_of_nil in Hname];
    unfold handleTool in Hthrow; simpl in Hthrow.
  - destruct (parseListIndicators h args) as [pattern|e'] eqn:Hp;
      simpl in Hthrow;
      [|injection Hthrow as <-; left; by eapply parseListIndicators_throw].
    destruct (getIndicatorFiles h pattern) eqn:Hg; [done|].
    injection Hthrow as <-. right. by eapply getIndicatorFiles_throw_message.
  - destruct (parseIndicatorName h args) as [indicatorName|e'] eqn:Hp;
      simpl in Hthrow;
      [|injection Hthrow as <-; left; by eapply parseIndicatorName_throw].
    destruct (readIndicatorFile h indicatorName) as [content|e'] eqn:Hr;
      simpl in Hthrow;
      [|injection Hthrow as <-; right;
        by eapply readIndicatorFile_throw_message].
    by rewrite analyzeIndicatorCode_eq in Hthrow.
  - destruct (parseSearchIndicator h args) as [[searchTerm ci]|e'] eqn:Hp;
      simpl in Hthrow;
      [|injection Hthrow as <-; left; by eapply parseSearchIndicator_throw].
    destruct (getIndicatorFiles h None) as [indicators|e'] eqn:Hg;
      simpl in Hthrow;
      [|injection Hthrow as <-; right;
        by eapply getIndicatorFiles_throw_message].
    destruct (searchIndicators_recorded h searchTerm ci indicators)
      as (results & Hrun & _).
    by rewrite Hrun in Hthrow.
  - destruct (parseIndicatorName h args) as [indicatorName|e'] eqn:Hp;
      simpl in Hthrow;
      [|injection Hthrow as <-; left; by eapply parseIndicatorName_throw].
    destruct (readIndicatorFile h indicatorName) as [content|e'] eqn:Hr;
      simpl in Hthrow;
      [|injection Hthrow as <-; right;
        by eapply readIndicatorFile_throw_message].
    destruct (extractFunctions_ok content) as (spans & Hrun).
    by rewrite Hrun in Hthrow.
Qed.

(** X16. The tools the server advertises are exactly the tools it
    dispatches: a request is answered with the unknown-tool error if and
    only if its name is none of the advertised names. *)
Theorem advertised_tools_are_dispatched (h : Host) (name : jsstring)
  (args : jsargs) :
  name ∈ List.map toolName listTools <->
  handleTool h name args <> Throw (newError (str "Unknown tool: " ++ name)).
Proof.
  split.
  - intros Hname Hthrow.
    destruct (handleTool_throws _ _ _ _ Hthrow Hname) as [He|(m & He)];
      [done|]. by injection He.
  - intros Hthrow. destruct (decide (name ∈ List.map toolName listTools))
      as [|Hout]; [done|].
    exfalso. apply Hthrow. simpl in Hout.
    rewrite !not_elem_of_cons in Hout.
    destruct Hout as (H1 & H2 & H3 & H4 & _).
    unfold handleTool. by rewrite !strEq_neq.
Qed.

(** X17. [analyze_indicator] and [extract_functions] reject arguments
    without a string [indicatorName] before they touch any file: the
    answer is the error-flagged validation message, whatever the host's
    files are. *)
Theorem invalid_indicator_name_rejected (h : Host) (name : jsstring)
  (args : jsargs) :
  name = str "analyze_indicator" \/ name = str "extract_functions" ->
  match args with
  | ArgsObject props => forall s, props (str "indicatorName") <> PString s
  | ArgsNotObject => True
  end ->
  callTool h name args =
  {| text := str "Error: " ++
             zodMessage h
               match args with
               | ArgsObject props =>
                   [BadProperty (str "indicatorName")
                                (props (str "indicatorName"))]
               | ArgsNotObject => [BadRoot]
               end;
     isError := true |}.
Proof.
  intros [-> | ->] Hargs; unfold callTool, handleTool, parseIndicatorName;
    simpl; destruct args as [props|]; try done;
    destruct (props (str "indicatorName")) eqn:E; try done;
    by destruct (Hargs s).
Qed.

Lemma invalid_indicator_name_rejected_witness :
  callTool (TestHost.host []) (str "extract_functions")
    (ArgsObject TestHost.noArgs) =
  {| text := str "Error: Invalid input"; isError := true |}.
Proof.
  apply (invalid_indicator_name_rejected (TestHost.host [])
           (str "extract_functions") (ArgsObject TestHost.noArgs)).
  - by right.
  - intros s. discriminate.
Defined.

(** X18. Leaving [caseInsensitive] out of a [search_indicators] request is
    the same as passing [true]. *)
Theorem search_defaults_to_case_insensitive (h : Host)
  (props props' : jsstring -> jsprim) :
  props (str "caseInsensitive") = PUndefined ->
  props' (str "caseInsensitive") = PBool true ->
  props (str "searchTerm") = props' (str "searchTerm") ->
  callTool h (str "search_indicators") (ArgsObject props) =
  callTool h (str "search_indicators") (ArgsObject props').
Proof.
  intros H H' Hterm. unfold callTool, handleTool, parseSearchIndicator.
  simpl. by rewrite H, H', Hterm.
Qed.

Lemma search_defaults_to_case_insensitive_witness :
  callTool (TestHost.host [(str "rsi", scenarioC)]) (str "search_indicators")
    (ArgsObject (TestHost.withArg (str "searchTerm") (PString (str "RSI"))
                   TestHost.noArgs)) =
  callTool (TestHost.host [(str "rsi", scenarioC)]) (str "search_indicators")
    (ArgsObject (TestHost.withArg (str "caseInsensitive") (PBool true)
                   (TestHost.withArg (str "searchTerm") (PString (str "RSI"))
                      TestHost.noArgs))).
Proof.
  apply (search_defaults_to_case_insensitive
           (TestHost.host [(str "rsi", scenarioC)])); reflexivity.
Defined.

(** X19. [extract_functions] on a file that cannot be read answers with an
    error-flagged text that names the file and renders the read error. *)
Theorem extract_missing_file_reported (h : Host)
  (props : jsstring -> jsprim) (filename : jsstring) (error : jsexn) :
  props (str "indicatorName") = PString filename ->
  readFileSync h filename = Throw error ->
  callTool h (str "extract_functions") (ArgsObject props) =
  {| text := str "Error: Failed to read indicator file " ++ [DQUOTE] ++
             filename ++ [DQUOTE] ++ str ": " ++ exnToString error;
     isError := true |}.
Proof.
  intros Hprop Hread. unfold callTool, handleTool. simpl. rewrite Hprop.
  simpl. by rewrite (readIndicatorFile_throw _ _ _ Hread).
Qed.

Lemma extract_missing_file_reported_witness :
  isError (callTool (TestHost.host []) (str "extract_functions")
             (ArgsObject (TestHost.withArg (str "indicatorName")
                            (PString (str "gone.pine")) TestHost.noArgs)))
  = true.
Proof.
  rewrite (extract_missing_file_reported (TestHost.host [])
             (TestHost.withArg (str "indicatorName")
                (PString (str "gone.pine")) TestHost.noArgs)
             (str "gone.pine") (TestHost.enoent (str "gone.pine"))
             eq_refl eq_refl).
  reflexivity.
Defined.

Lemma includes_join_elem sep (a : list jsstring) x :
  x ∈ a -> includes (join sep a) x = true.
Proof.
  intros Hx. apply includes_spec.
  induction a as [|y a IH]; [by apply elem_of_nil in Hx|].
  destruct a as [|z a].
  - apply list_elem_of_singleton in Hx as ->. exists [], [].
    simpl. by rewrite app_nil_r.
  - rewrite join_cons2. apply elem_of_cons in Hx as [->|Hx].
    + by exists [], (sep ++ join sep (z :: a)).
    + destruct (IH Hx) as (u & v & ->).
      exists (y ++ sep ++ u), v. by rewrite <- !app_assoc.
Qed.

Lemma join_app_ne sep (u v : list jsstring) :
  u <> [] -> v <> [] ->
  join sep (u ++ v) = join sep u ++ sep ++ join sep v.
Proof.
  intros Hu Hv. induction u as [|x u IH]; [done|].
  destruct u as [|y u].
  - simpl app. destruct v as [|z v]; [done|]. by rewrite join_cons2.
  - change ((x :: y :: u) ++ v) with (x :: y :: (u ++ v)).
    rewrite !join_cons2. change (y :: (u ++ v)) with ((y :: u) ++ v).
    rewrite IH by done. by rewrite <- !app_assoc.
Qed.

(** A run of consecutive elements of [a], joined, occurs in the join
    of [a]. *)
Lemma includes_join_infix sep (a1 b a2 : list jsstring) :
  b <> [] -> includes (join sep (a1 ++ b ++ a2)) (join sep b) = true.
Proof.
  intros Hb. apply includes_spec.
  destruct a1 as [|x a1], a2 as [|z a2].
  - exists [], []. by rewrite !app_nil_r.
  - exists [], (sep ++ join sep (z :: a2)).
    simpl app at 1. by rewrite join_app_ne.
  - exists (join sep (x :: a1) ++ sep), [].
    rewrite !app_nil_r, join_app_ne by done. by rewrite <- !app_assoc.
  - exists (join sep (x :: a1) ++ sep), (sep ++ join sep (z :: a2)).
    rewrite join_app_ne by (done || by destruct b).
    rewrite join_app_ne by done. by rewrite <- !app_assoc.
Qed.

Lemma includes_join_at sep (a : list jsstring) i (b : list jsstring) :
  b <> [] -> take (length b) (drop i a) = b ->
  includes (join sep a) (join sep b) = true.
Proof.
  intros Hb Hat. rewrite <- (take_drop i a) at 1.
  rewrite <- (take_drop (length b) (drop i a)), Hat.
  by apply includes_join_infix.
Qed.

Lemma join_two_lines (x y : jsstring) :
  x ++ [LF] ++ y ++ [LF] = join [LF] [x; y; []].
Proof. done. Qed.

Lemma analyze_ok h props filename content :
  props (str "indicatorName") = PString filename ->
  readFileSync h filename = Ok content ->
  exists analysis,
    analyzeIndicatorCode content = Ok analysis /\
    callTool h (str "analyze_indicator") (ArgsObject props) =
    textResponse (renderAnalysis filename analysis).
Proof.
  intros Hprop Hread. eexists. split; [apply analyzeIndicatorCode_eq|].
  unfold callTool, handleTool, readIndicatorFile. simpl. rewrite Hprop.
  simpl. rewrite Hread. simpl. by rewrite analyzeIndicatorCode_eq.
Qed.

(** X20. The report of [analyze_indicator] on a readable file is not
    flagged as an error. Its overview shows, each on a line of its own, the
    real number of lines and the tier computed from the real counts, while
    the numbers of functions and of plots found are the capped list
    lengths: never more than 10, however many the file holds. *)
Theorem analysis_report_counts (h : Host) (props : jsstring -> jsprim)
  (filename content : jsstring) :
  props (str "indicatorName") = PString filename ->
  readFileSync h filename = Ok content ->
  isError (callTool h (str "analyze_indicator") (ArgsObject props)) = false /\
  includes (text (callTool h (str "analyze_indicator") (ArgsObject props)))
    ((str "- **Lines of Code**: " ++
      numToString (length (split LF content))) ++ [LF] ++
     (str "- **Complexity**: " ++ renderComplexity (tierOf content)) ++ [LF])
    = true /\
  includes (text (callTool h (str "analyze_indicator") (ArgsObject props)))
    (str "- **Functions**: " ++
     numToString (Nat.min 10 (functionCount content)) ++ str " found")
    = true /\
  includes (text (callTool h (str "analyze_indicator") (ArgsObject props)))
    (str "- **Plots**: " ++
     numToString (Nat.min 10 (plotCount content)) ++ str " found") = true.
Proof.
  intros Hprop Hread.
  destruct (analyze_ok h props filename content Hprop Hread)
    as (analysis & Hrun & ->).
  rewrite analyzeIndicatorCode_eq in Hrun. injection Hrun as <-.
  split; [done|]. unfold textResponse, renderAnalysis.
  cbn [text functions plots lineCount complexity].
  unfold allFunctions, allPlots. rewrite !length_take, !length_map.
  fold (functionCount content). fold (plotCount content).
  split.
  - rewrite join_two_lines. by apply (includes_join_at [LF] _ 3).
  - split; apply includes_join_elem;
      repeat first [apply list_elem_of_here | apply list_elem_of_further].
Qed.

Lemma analysis_report_counts_witness :
  includes
    (text (callTool (TestHost.host [(str "many", scenarioB)])
             (str "analyze_indicator")
             (ArgsObject (TestHost.withArg (str "indicatorName")
                            (PString (str "many")) TestHost.noArgs))))
    (str "- **Lines of Code**: 350" ++ [LF] ++
     str "- **Complexity**: High" ++ [LF]) = true /\
  includes
    (text (callTool (TestHost.host [(str "many", scenarioB)])
             (str "analyze_indicator")
             (ArgsObject (TestHost.withArg (str "indicatorName")
                            (PString (str "many")) TestHost.noArgs))))
    (str "- **Functions**: 10 found") = true.
Proof.
  destruct (analysis_report_counts (TestHost.host [(str "many", scenarioB)])
              (TestHost.withArg (str "indicatorName")
                 (PString (str "many")) TestHost.noArgs)
              (str "many") scenarioB eq_refl eq_refl)
    as (_ & Hl & Hf & _).
  split; [exact Hl | exact Hf].
Defined.

(** ** The two-tool server *)

Lemma simple_keepFile h pattern f :
  Simple.keepFile h pattern f =
  keepFile h pattern f && negb (includes f (str "node_modules")).
Proof.
  unfold Simple.keepFile, keepFile.
  destruct (startsWith f _), (includes f (str "node_modules")),
    (includes f (str "package")), (includes f (str "tsconfig")),
    (includes f (str "Dockerfile")), (endsWith f (str ".js")),
    (endsWith f (str ".ts")), (endsWith f (str ".json")),
    (endsWith f (str ".md")), (endsWith f (str ".rar")); simpl;
    by rewrite ?andb_true_r, ?andb_false_r.
Qed.

Lemma filter_andb {A} (p q : A -> bool) (l : list A) :
  List.filter (fun x => p x && q x) l = List.filter q (List.filter p l).
Proof.
  induction l as [|x l IH]; simpl; [done|].
  destruct (p x); simpl; [|done]. by rewrite IH.
Qed.

(** X21. The two-tool server's [getIndicatorFiles] never fails: when the
    directory cannot be read it returns no file, and otherwise it returns
    what the four-tool server's returns, less the names that contain
    [node_modules]. *)
Theorem simple_getIndicatorFiles_total (h : Host) (pattern : option jsstring) :
  exists files,
    Simple.getIndicatorFiles h pattern = Ok files /\
    match getIndicatorFiles h pattern with
    | Ok kept =>
        files =
        List.filter (fun f => negb (includes f (str "node_modules"))) kept
    | Throw _ => files = []
    end.
Proof.
  unfold Simple.getIndicatorFiles, getIndicatorFiles.
  destruct (readdirSync h) as [files|error]; simpl; eexists; (split; [done|]).
  - rewrite <- filter_andb. apply filter_ext. intros f.
    apply simple_keepFile.
  - done.
Qed.

Lemma simple_mapM_ok {A B} (f : A -> result B) (g : A -> B) (xs : list A) :
  (forall x, f x = Ok (g x)) -> Simple.mapM f xs = Ok (List.map g xs).
Proof.
  intros Hf. induction xs as [|x xs IH]; simpl; [done|].
  by rewrite Hf, IH.
Qed.

Lemma simple_keyFunctions_ok (fs : list jsstring) :
  Simple.mapM (fun f => let* n := at0 (split LPAREN (trim f)) in
                        Ok (str "- " ++ n)) fs =
  Ok (List.map (fun f => str "- " ++ functionName (trim f)) fs).
Proof.
  apply simple_mapM_ok. intros f. by rewrite at0_split.
Qed.

Lemma length_filter_map {A B} (p : B -> bool) (f : A -> B) (l : list A) :
  length (List.filter (fun x => p (f x)) l) =
  length (List.filter p (List.map f l)).
Proof.
  induction l as [|x l IH]; simpl; [done|].
  destruct (p (f x)); simpl; by rewrite IH.
Qed.

(** X22. The two-tool server answers a failed file read itself: with a
    valid [indicatorName], [analyze_indicator] on a file that cannot be read
    returns, and does not throw, an error-flagged text naming the file and
    rendering the read error. *)
Theorem simple_read_failure_answered (h : Host) (args : jsargs)
  (indicatorName : jsstring) (error : jsexn) :
  parseIndicatorName h args = Ok indicatorName ->
  readFileSync h indicatorName = Throw error ->
  Simple.handleTool h (str "analyze_indicator") args =
  Ok {| text := str "Error reading file " ++ [DQUOTE] ++ indicatorName ++
                [DQUOTE] ++ str ": " ++ exnToString error;
        isError := true |}.
Proof.
  intros Hparse Hread. unfold Simple.handleTool, Simple.analyze. simpl.
  rewrite Hparse. simpl. by rewrite Hread.
Qed.

Lemma simple_read_failure_answered_witness :
  exists r,
    Simple.handleTool (TestHost.host []) (str "analyze_indicator")
      (ArgsObject (TestHost.withArg (str "indicatorName")
                     (PString (str "gone.pine")) TestHost.noArgs)) = Ok r /\
    isError r = true.
Proof.
  eexists. split.
  - apply (simple_read_failure_answered (TestHost.host []) _
             (str "gone.pine") (TestHost.enoent (str "gone.pine")));
      reflexivity.
  - reflexivity.
Defined.

Lemma simple_analyze_ok h indicatorName :
  exists r, Simple.analyze h indicatorName = Ok r.
Proof.
  unfold Simple.analyze.
  destruct (readFileSync h indicatorName) as [content|error]; simpl;
    [|by eauto].
  rewrite simple_keyFunctions_ok. simpl. by eauto.
Qed.

Lemma strEq_eq' s t : strEq s t = false -> s <> t.
Proof. intros H Heq. apply strEq_eq in Heq. congruence. Qed.

(** X23. The two-tool server lets only two kinds of error leave its
    handler, a validation error and the unknown-tool error, and the second
    one exactly for the names it does not advertise; it has no catch-all,
    so these are thrown, not answered. *)
Theorem simple_handler_throws (h : Host) (name : jsstring) (args : jsargs) :
  (forall e, Simple.handleTool h name args = Throw e ->
     ename e = str "ZodError" \/
     e = newError (str "Unknown tool: " ++ name)) /\
  (name ∈ List.map toolName Simple.listTools <->
   Simple.handleTool h name args <>
   Throw (newError (str "Unknown tool: " ++ name))).
Proof.
  unfold Simple.handleTool, Simple.getIndicatorFiles.
  change (List.map toolName Simple.listTools)
    with [str "list_indicators"; str "analyze_indicator"].
  rewrite !elem_of_cons, elem_of_nil.
  destruct (strEq name (str "list_indicators")) eqn:E1;
    [apply strEq_eq in E1 as ->|].
  { assert (forall e, (let* pattern := parseListIndicators h args in
                       let* indicators :=
                         tryCatch
                           (let* files := readdirSync h in
                            Ok (List.filter (Simple.keepFile h pattern) files))
                           (fun _ => Ok []) in
                       Ok (textResponse (renderList indicators))) = Throw e ->
                      ename e = str "ZodError") as Hzod.
    { intros e. destruct (parseListIndicators h args) as [p|j] eqn:Hp;
        cbn [bind].
      - by destruct (readdirSync h).
      - intros He. assert (j = e) as <- by congruence.
        by eapply parseListIndicators_throw. }
    split; [by intros e He; left; apply Hzod|].
    split; [|by intros; left].
    intros _ He. by apply Hzod in He. }
  destruct (strEq name (str "analyze_indicator")) eqn:E2;
    [apply strEq_eq in E2 as ->|].
  { assert (forall e, (let* indicatorName := parseIndicatorName h args in
                       Simple.analyze h indicatorName) = Throw e ->
                      ename e = str "ZodError") as Hzod.
    { intros e. destruct (parseIndicatorName h args) as [n|j] eqn:Hp;
        cbn [bind].
      - by destruct (simple_analyze_ok h n) as (r & ->).
      - intros He. assert (j = e) as <- by congruence.
        by eapply parseIndicatorName_throw. }
    split; [by intros e He; left; apply Hzod|].
    split; [|by intros; right; left].
    intros _ He. by apply Hzod in He. }
  apply strEq_eq' in E1. apply strEq_eq' in E2.
  split.
  - intros e He. right. congruence.
  - split; [|done]. intros [->|[->|[]]]; done.
Qed.

(** X24. On a readable file the two-tool server's [analyze_indicator]
    answers without error flag and shows, each on a line of its own, the
    real, uncapped counts: the number of lines and the number of
    function-pattern lines, the same count the four-tool server uses for
    its tier. *)
Theorem simple_analysis_counts (h : Host) (args : jsargs)
  (indicatorName content : jsstring) :
  parseIndicatorName h args = Ok indicatorName ->
  readFileSync h indicatorName = Ok content ->
  exists r,
    Simple.handleTool h (str "analyze_indicator") args = Ok r /\
    isError r = false /\
    includes (text r)
      (join [LF]
         [ str "## File Stats";
           str "- Lines: " ++ numToString (length (split LF content));
           str "- Functions: " ++ numToString (functionCount content);
           str "- Plots: " ++
             numToString
               (length (List.filter (fun l => includes l (str "plot("))
                                    (split LF content)));
           str "- Inputs: " ++
             numToString
               (length (List.filter (fun l => includes l (str "input"))
                                    (split LF content)));
           [] ]) = true.
Proof.
  intros Hparse Hread. unfold Simple.handleTool, Simple.analyze.
  change (strEq (str "analyze_indicator") (str "list_indicators"))
    with false.
  change (strEq (str "analyze_indicator") (str "analyze_indicator"))
    with true.
  cbn [bind tryCatch]. rewrite Hparse. cbn [bind tryCatch].
  rewrite Hread. cbn [bind tryCatch].
  rewrite simple_keyFunctions_ok. cbn [bind tryCatch].
  eexists. split; [done|]. split; [done|].
  unfold textResponse. cbn [text].
  rewrite (length_filter_map isFunctionLine trim).
  fold (trimmedLines content). fold (functionCount content).
  by apply (includes_join_at [LF] _ 2).
Qed.

Lemma simple_analysis_counts_witness :
  exists r,
    Simple.handleTool (TestHost.host [(str "many", scenarioB)])
      (str "analyze_indicator")
      (ArgsObject (TestHost.withArg (str "indicatorName")
                     (PString (str "many")) TestHost.noArgs)) = Ok r /\
    includes (text r)
      (str "- Lines: 350" ++ [LF] ++ str "- Functions: 25" ++ [LF])
    = true.
Proof.
  destruct (simple_analysis_counts (TestHost.host [(str "many", scenarioB)])
              (ArgsObject (TestHost.withArg (str "indicatorName")
                             (PString (str "many")) TestHost.noArgs))
              (str "many") scenarioB eq_refl eq_refl)
    as (r & Hrun & _ & Hf).
  exists r. split; [exact Hrun|].
  eapply includes_trans; [exact Hf|]. by vm_compute.
Defined.

(** ** Variable names *)

Lemma dropWhile_head_stops p c s : p c = false -> dropWhile p (c :: s) = c :: s.
Proof. intros H. simpl. by rewrite H. Qed.

Lemma isIdentChar_not_space c : isIdentChar c = true -> isWhiteSpace c = false.
Proof.
  intros Hc. apply not_true_is_false. intros Hw%whiteSpace_not_ident.
  congruence.
Qed.

Lemma trim_identifier_space c ident ws :
  isIdentStart c = true ->
  Forall (fun d => isIdentChar d = true) ident ->
  Forall (fun d => isWhiteSpace d = true) ws ->
  trim (c :: ident ++ ws) = c :: ident.
Proof.
  intros Hc Hident Hws. unfold trim, trimStart, trimEnd.
  rewrite (dropWhile_head_stops _ _ _ (isIdentStart_not_space _ Hc)).
  change (c :: ident ++ ws) with ((c :: ident) ++ ws).
  rewrite reverse_app, dropWhile_app_all by by apply Forall_reverse.
  assert (dropWhile isWhiteSpace (reverse (c :: ident)) = reverse (c :: ident))
    as ->; [|apply reverse_involutive].
  destruct (reverse (c :: ident)) as [|d rest] eqn:E; [done|].
  apply dropWhile_head_stops.
  assert (d ∈ c :: ident) as Hin.
  { rewrite <- (reverse_involutive (c :: ident)), E, elem_of_reverse.
    by left. }
  apply elem_of_cons in Hin as [->|Hin]; [by apply isIdentStart_not_space|].
  apply isIdentChar_not_space. by apply (proj1 (Forall_forall _ _) Hident).
Qed.

Lemma variableName_of_head t :
  HeadThenStop EQUALS t ->
  Identifier (trim (hd [] (split EQUALS t))).
Proof.
  intros (c & ident & ws & rest & -> & Hc & Hident & Hws).
  assert (EQUALS ∉ c :: ident ++ ws) as Hno.
  { rewrite not_elem_of_cons, not_elem_of_app. split; [|split].
    - intros <-. done.
    - intros Hin. by apply (proj1 (Forall_forall _ _) Hident) in Hin.
    - intros Hin. by apply (proj1 (Forall_forall _ _) Hws) in Hin. }
  replace (c :: ident ++ ws ++ EQUALS :: rest)
    with ((c :: ident ++ ws) ++ EQUALS :: rest)
    by (simpl; by rewrite <- app_assoc).
  rewrite hd_split_app by done.
  rewrite trim_identifier_space by done. by exists c, ident.
Qed.

Lemma matchHead_after_var w ws r :
  Forall (fun d => isWhiteSpace d = true) (w :: ws) ->
  match r with
  | d :: _ => isWhiteSpace d = false
  | [] => True
  end ->
  matchHead EQUALS (str "var" ++ (w :: ws) ++ r) = true ->
  exists rest, r = EQUALS :: rest.
Proof.
  intros Hws Hr. apply Forall_cons in Hws as [Hw Hws].
  unfold matchHead.
  change (str "var" ++ (w :: ws) ++ r)
    with (118%N :: 97%N :: 114%N :: w :: ws ++ r).
  change (isIdentStart 118%N) with true.
  cbn [andb dropWhile]. change (isIdentChar 97%N) with true.
  change (isIdentChar 114%N) with true. cbn iota.
  rewrite (whiteSpace_not_ident _ Hw). cbn [dropWhile]. rewrite Hw.
  rewrite (dropWhile_app_all _ _ _ Hws).
  destruct r as [|d r]; [done|].
  rewrite (dropWhile_head_stops _ _ _ Hr).
  intros ->%N.eqb_eq. by eauto.
Qed.

Lemma variableName_shape t :
  isVariableLine t = true -> variableName t = [] \/ Identifier (variableName t).
Proof.
  unfold isVariableLine, variableName, replaceVar. intros H.
  destruct (stripVar t) as [r|] eqn:Hstrip.
  - apply stripVar_Some in Hstrip as (w & ws & -> & Hws & Hr).
    destruct (matchHead EQUALS r) eqn:Hhead.
    + right. apply variableName_of_head. by apply matchHead_spec.
    + left. simpl in H.
      destruct (matchHead_after_var w ws r Hws Hr H) as (rest & ->).
      reflexivity.
  - right. apply variableName_of_head. by apply matchHead_spec.
Qed.

(** X25. Every variable name in the report is an identifier or the empty
    string, the latter being what a line that assigns to the bare word
    [var] produces. *)
Theorem variable_names_are_identifiers (content : jsstring) :
  exists r, analyzeIndicatorCode content = Ok r /\
    Forall (fun n => n = [] \/ Identifier n) (variables r).
Proof.
  run_analysis. apply Forall_take. unfold allVariables.
  apply Forall_forall. intros n Hn.
  apply list_elem_of_In, in_map_iff in Hn as (t & <- & Ht).
  apply filter_In in Ht as [_ Ht]. by apply variableName_shape.
Qed.

(** ** Rendered reports *)




Lemma includes_app_r a s t : includes s t = true -> includes (a ++ s) t = true.
Proof.
  rewrite !includes_spec. intros (u & v & ->). exists (a ++ u), v.
  by rewrite <- app_assoc.
Qed.

Lemma extract_ok h props filename content :
  props (str "indicatorName") = PString filename ->
  readFileSync h filename = Ok content ->
  exists spans,
    extractFunctions content = Ok spans /\
    callTool h (str "extract_functions") (ArgsObject props) =
    textResponse (renderFunctions filename spans).
Proof.
  intros Hprop Hread. destruct (extractFunctions_ok content) as (spans & Hrun).
  exists spans. split; [done|].
  unfold callTool, handleTool, readIndicatorFile. simpl. rewrite Hprop.
  simpl. rewrite Hread. simpl. by rewrite Hrun.
Qed.

(** X27. The report of [extract_functions] on a readable file is not
    flagged as an error. It opens with the file name and the number of
    function-pattern lines of the file, uncapped, and holds for every span
    a block of its own: the name as a heading, on the next line the range
    [start-end], then the code between fences, then a rule. *)
Theorem extract_report_contents (h : Host) (props : jsstring -> jsprim)
  (filename content : jsstring) :
  props (str "indicatorName") = PString filename ->
  readFileSync h filename = Ok content ->
  exists spans,
    extractFunctions content = Ok spans /\
    isError (callTool h (str "extract_functions") (ArgsObject props))
      = false /\
    startsWith
      (text (callTool h (str "extract_functions") (ArgsObject props)))
      (str "# Functions extracted from " ++ filename ++ [LF; LF] ++
       str "Found " ++ numToString (functionCount content) ++
       str " functions:" ++ [LF; LF]) = true /\
    Forall (fun f =>
      includes (text (callTool h (str "extract_functions") (ArgsObject props)))
        (join [LF]
           [ str "## " ++ name f;
             str "**Lines**: " ++ numToString (startLine f) ++ str "-" ++
               numToString (endLine f);
             [];
             [BACKTICK; BACKTICK; BACKTICK] ++ str "pinescript";
             code f;
             [BACKTICK; BACKTICK; BACKTICK];
             [];
             str "---" ]) = true) spans.
Proof.
  intros Hprop Hread.
  destruct (extract_ok h props filename content Hprop Hread)
    as (spans & Hrun & ->).
  exists spans. split; [done|]. split; [done|].
  unfold textResponse, renderFunctions. cbn [text].
  assert (length spans = functionCount content) as Hlen.
  { unfold extractFunctions in Hrun.
    destruct (forOf_extractAt_eq (split LF content)
                (length (split LF content)) 0 [] ltac:(lia))
      as (spans' & Hrun' & _ & Hname).
    rewrite Hrun in Hrun'. injection Hrun' as <-.
    pose proof (function_lines_by_index [] (split LF content)) as Hidx.
    simpl in Hidx. rewrite Hidx in Hname.
    unfold functionCount, trimmedLines.
    by rewrite <- (length_map name), Hname, length_map. }
  rewrite Hlen. split.
  - rewrite !app_assoc. apply startsWith_app.
  - apply Forall_forall. intros f Hf.
    do 7 apply includes_app_r.
    apply (includes_join_elem [LF] (List.map renderSpan spans) (renderSpan f)).
    apply list_elem_of_In, in_map, list_elem_of_In, Hf.
Qed.

Lemma extract_report_contents_witness :
  includes
    (text (callTool (TestHost.host [(str "a", scenarioA)])
             (str "extract_functions")
             (ArgsObject (TestHost.withArg (str "indicatorName")
                            (PString (str "a")) TestHost.noArgs))))
    (str "## foo" ++ [LF] ++ str "**Lines**: 1-3" ++ [LF]) = true.
Proof.
  destruct (extract_report_contents (TestHost.host [(str "a", scenarioA)])
              (TestHost.withArg (str "indicatorName")
                 (PString (str "a")) TestHost.noArgs)
              (str "a") scenarioA eq_refl eq_refl)
    as (spans & Hrun & _ & _ & Hall).
  injection Hrun as <-. apply Forall_cons in Hall as [Hblock _].
  eapply includes_trans; [exact Hblock|]. by vm_compute.
Defined.

(** X28. With a readable directory and valid arguments the report of
    [search_indicators] is not flagged as an error; it says that nothing
    was found exactly when no listed file is readable and contains the
    term, and otherwise states the number of such files and heads a block
    with the name of each. *)
Theorem search_report_contents (h : Host) (args : jsargs)
  (files : list jsstring) (searchTerm : jsstring) (caseInsensitive : bool) :
  readdirSync h = Ok files ->
  parseSearchIndicator h args = Ok (searchTerm, caseInsensitive) ->
  isError (callTool h (str "search_indicators") args) = false /\
  (List.filter (hit h searchTerm caseInsensitive)
     (List.filter (keepFile h None) files) = [] ->
   text (callTool h (str "search_indicators") args) =
   str "No matches found for " ++ [DQUOTE] ++ searchTerm ++ [DQUOTE]) /\
  (List.filter (hit h searchTerm caseInsensitive)
     (List.filter (keepFile h None) files) <> [] ->
   includes (text (callTool h (str "search_indicators") args))
     (str "Found " ++ [DQUOTE] ++ searchTerm ++ [DQUOTE] ++ str " in " ++
      numToString
        (length (List.filter (hit h searchTerm caseInsensitive)
                   (List.filter (keepFile h None) files))) ++
      str " files:") = true /\
   Forall (fun f =>
     includes (text (callTool h (str "search_indicators") args))
              (str "**" ++ f ++ str "**:") = true)
     (List.filter (hit h searchTerm caseInsensitive)
        (List.filter (keepFile h None) files))).
Proof.
  intros Hdir Hparse.
  destruct (forOf_searchFile_files h searchTerm caseInsensitive
              (List.filter (keepFile h None) files) [])
    as (results & Hrun & Hfiles).
  simpl in Hfiles.
  assert (callTool h (str "search_indicators") args =
          textResponse (renderSearch searchTerm results)) as ->.
  { unfold callTool, handleTool, getIndicatorFiles, searchIndicators.
    change (strEq (str "search_indicators") (str "list_indicators"))
      with false.
    change (strEq (str "search_indicators") (str "analyze_indicator"))
      with false.
    change (strEq (str "search_indicators") (str "search_indicators"))
      with true.
    cbn iota. rewrite Hparse. cbn [bind tryCatch]. rewrite Hdir.
    cbn [bind tryCatch]. by rewrite Hrun. }
  rewrite <- Hfiles. split; [done|].
  unfold textResponse, renderSearch. cbn [text]. split.
  - intros Hnil. by destruct results.
  - intros Hne. rewrite length_map.
    destruct results as [|r results]; [done|]. cbn [length Nat.ltb Nat.leb].
    cbn iota. split.
    + apply includes_spec. exists [].
      eexists. rewrite <- !app_assoc. reflexivity.
    + apply Forall_forall. intros f Hf.
      apply list_elem_of_In, in_map_iff in Hf as (r' & <- & Hr').
      do 8 apply includes_app_r.
      eapply includes_trans.
      * apply includes_join_elem.
        apply list_elem_of_In, in_map, Hr'.
      * unfold renderFileMatches. apply includes_spec. exists [].
        eexists. rewrite <- !app_assoc. reflexivity.
Qed.

Lemma search_report_contents_witness :
  includes
    (text (callTool (TestHost.host [(str "rsi", scenarioC)])
             (str "search_indicators")
             (ArgsObject (TestHost.withArg (str "searchTerm")
                            (PString (str "RSI")) TestHost.noArgs))))
    (str "**rsi**:") = true.
Proof.
  destruct (search_report_contents (TestHost.host [(str "rsi", scenarioC)])
              (ArgsObject (TestHost.withArg (str "searchTerm")
                             (PString (str "RSI")) TestHost.noArgs))
              [str "rsi"] (str "RSI") true eq_refl eq_refl)
    as (_ & _ & Hfound).
  destruct Hfound as [_ Hall]; [discriminate|].
  apply Forall_cons in Hall as [Hf _]. exact Hf.
Defined.

Lemma digits_are_digits u : Forall (fun c => (48 <= c <= 57)%N) (digits u).
Proof. induction u; simpl; constructor; (lia || done). Qed.

Lemma numToString_no_newline n : LF ∉ numToString n.
Proof.
  intros Hin. unfold numToString in Hin.
  apply (proj1 (Forall_forall _ _) (digits_are_digits _)) in Hin.
  unfold LF in Hin. lia.
Qed.

(** X29. With a readable directory and valid arguments the report of
    [list_indicators] is not flagged as an error and is exactly this text:
    [Found N indicator files:] with N the number of files
    [getIndicatorFiles] kept, two newlines, and, separated by newlines, one
    entry per kept file in directory order, made of its position counted
    from 1, a dot, a space and its name. So when no file name holds a
    newline, the kept file at position [i] (from 0) is line [i + 3] of the
    report, and that line reads [i + 1], dot, space, name. *)
Theorem list_report_contents (h : Host) (args : jsargs)
  (files : list jsstring) (pattern : option jsstring) :
  readdirSync h = Ok files ->
  parseListIndicators h args = Ok pattern ->
  isError (callTool h (str "list_indicators") args) = false /\
  text (callTool h (str "list_indicators") args) =
    str "Found " ++
    numToString (length (List.filter (keepFile h pattern) files)) ++
    str " indicator files:" ++ [LF; LF] ++
    join [LF]
      (imap (fun i f => numToString (i + 1) ++ str ". " ++ f)
            (List.filter (keepFile h pattern) files)) /\
  (Forall (fun f => LF ∉ f) files ->
   forall i f,
     List.filter (keepFile h pattern) files !! i = Some f ->
     split LF (text (callTool h (str "list_indicators") args)) !! (i + 2) =
     Some (numToString (i + 1) ++ str ". " ++ f)).
Proof.
  intros Hdir Hparse.
  assert (callTool h (str "list_indicators") args =
          textResponse
            (renderList (List.filter (keepFile h pattern) files))) as ->.
  { unfold callTool, handleTool, getIndicatorFiles.
    change (strEq (str "list_indicators") (str "list_indicators")) with true.
    cbn iota. rewrite Hparse. cbn [bind tryCatch]. by rewrite Hdir. }
  split; [done|]. split; [done|].
  intros Hnames i f Hf. unfold textResponse, renderList. cbn [text].
  set (kept := List.filter (keepFile h pattern) files) in *.
  set (items := imap (fun i file => numToString (i + 1) ++ str ". " ++ file)
                     kept).
  set (header := str "Found " ++ numToString (length kept) ++
                 str " indicator files:").
  assert (items !! i = Some (numToString (i + 1) ++ str ". " ++ f)) as Hitem.
  { unfold items. rewrite list_lookup_imap.
    change (list jsstring) with (list (list char)) in *.
    change jsstring with (list char) in *. by rewrite Hf. }
  assert (str "Found " ++ numToString (length kept) ++
          str " indicator files:" ++ [LF; LF] ++ join [LF] items =
          join [LF] (header :: [] :: items)) as ->.
  { destruct items as [|item items']; [done|].
    rewrite !join_cons2. unfold header. by rewrite <- !app_assoc. }
  rewrite split_join.
  - replace (i + 2) with (S (S i)) by lia. exact Hitem.
  - done.
  - assert (forall s : string, LF ∉ str s ->
              forall t, LF ∉ t -> LF ∉ str s ++ t) as Happ
      by (intros s Hs t Ht; rewrite not_elem_of_app; done).
    constructor.
    + unfold header. rewrite !not_elem_of_app.
      split; [|split]; [|apply numToString_no_newline|];
        rewrite <- includes_singleton; by vm_compute.
    + constructor; [apply not_elem_of_nil|].
      unfold items. apply Forall_forall. intros item Hitem'.
      apply elem_of_lookup_imap in Hitem' as (j & g & -> & Hg).
      rewrite !not_elem_of_app. split; [apply numToString_no_newline|].
      split; [rewrite <- includes_singleton; by vm_compute|].
      apply (proj1 (Forall_forall _ _) Hnames).
      apply list_elem_of_lookup_2 in Hg.
      apply list_elem_of_In, filter_In in Hg as [Hg _].
      by apply list_elem_of_In.
Qed.

Lemma list_report_contents_witness :
  text (callTool (TestHost.host [(str "rsi", scenarioC); (str "ema", [])])
          (str "list_indicators") (ArgsObject TestHost.noArgs)) =
  str "Found 2 indicator files:" ++ [LF; LF] ++
  str "1. rsi" ++ [LF] ++ str "2. ema" /\
  split LF
    (text (callTool (TestHost.host [(str "rsi", scenarioC); (str "ema", [])])
             (str "list_indicators") (ArgsObject TestHost.noArgs))) !! 3 =
  Some (str "2. ema").
Proof.
  destruct (list_report_contents
              (TestHost.host [(str "rsi", scenarioC); (str "ema", [])])
              (ArgsObject TestHost.noArgs) [str "rsi"; str "ema"] None
              eq_refl eq_refl) as (_ & Htext & Hline).
  split; [rewrite Htext; reflexivity|].
  apply (Hline ltac:(repeat constructor; rewrite <- includes_singleton;
                     by vm_compute) 1 (str "ema") eq_refl).
Defined.

Lemma simple_handler_throws_witness :
  str "search_indicators" ∉ List.map toolName Simple.listTools.
Proof.
  intros Hin.
  apply (proj2 (simple_handler_throws (TestHost.host [])
                  (str "search_indicators") ArgsNotObject)) in Hin.
  apply Hin. reflexivity.
Defined.
